(** * finman: the transaction validator and the ledger aggregator

    A shallow embedding of [taskmanv1.py]: the [Transaction] constructor,
    the [FinanceManager] operations on the in-memory list and on the
    [finance.db] table, and the aggregation functions, followed by the
    properties of the specification that concern them.

    Conventions of the embedding.
    - Python values that reach the constructor are a small tagged union
      ([pyval]); [bool] is a subclass of [int], as in Python.
    - A Python [float] is an IEEE 754 binary64 number, modelled by
      [spec_float] with precision 53 and maximal exponent 1024; every
      arithmetic operation rounds as the hardware does. The builtin
      [sum] is modelled with the two algorithms CPython has had for
      floats, and the properties hold for both.
    - A [str] is a sequence of code points below 256; [str.lower] is the
      Unicode lower-casing restricted to that range.
    - Exceptions are values of [exn]; a computation that may raise
      returns a [result].
    - The table [transactions] of [finance.db] is a list of rows in
      [rowid] order; a [rowid] is a signed integer of 64 bits.
    - What depends on the platform is a parameter ([platform]): how the
      C library prints a year below 1000, and what the database engine
      does on a table that has used the largest [rowid]. The messages
      of the exceptions of [strptime] are those of CPython 3.11. *)

From Stdlib Require Import ZArith List String Ascii Bool Lia.
From Stdlib Require Import Floats.SpecFloat.
Import ListNotations.

Local Open Scope string_scope.
Local Open Scope Z_scope.

(** ** Exceptions and results *)

Inductive exn : Type :=
| ValueError (msg : string)
| OverflowError (msg : string)
| OperationalError (msg : string).

Inductive result (A : Type) : Type :=
| Ok (a : A)
| Raise (e : exn).

Arguments Ok {A} a.
Arguments Raise {A} e.

Definition bind {A B : Type} (r : result A) (k : A -> result B) : result B :=
  match r with
  | Ok a => k a
  | Raise e => Raise e
  end.

Notation "x <- r ;; k" := (bind r (fun x => k))
  (at level 61, r at next level, right associativity).

(** The two errors of the specification are both [ValueError]s in the
    source; they differ by their message. *)
Definition InvalidAmount : exn :=
  ValueError "Amount must be a positive number".
Definition InvalidKind : exn :=
  ValueError "Transaction type must be either 'expense' or 'income'".

(** ** Strings: [str.lower] *)

Module PyStr.

(** Code points below 256 that have a lower-case form: A-Z, and the
    Latin-1 capitals U+00C0..U+00DE without the multiplication sign. *)
Definition is_upper (n : N) : bool :=
  (((65 <=? n) && (n <=? 90)) ||
   ((192 <=? n) && (n <=? 222) && negb (n =? 215)))%N.

Definition lower_char (c : ascii) : ascii :=
  let n := N_of_ascii c in
  if is_upper n then ascii_of_N (n + 32) else c.

Fixpoint lower (s : string) : string :=
  match s with
  | EmptyString => EmptyString
  | String c s' => String (lower_char c) (lower s')
  end.

(** Case-insensitive match, stated without [lower]: two characters
    match when they are equal or one is the lower-case form of the
    other; two strings match when they have the same length and match
    position by position. *)
Definition same_letter (c1 c2 : ascii) : bool :=
  Ascii.eqb c1 c2 || Ascii.eqb (lower_char c1) c2
                  || Ascii.eqb c1 (lower_char c2).

Fixpoint eq_ci (s1 s2 : string) : bool :=
  match s1, s2 with
  | EmptyString, EmptyString => true
  | String c1 r1, String c2 r2 => same_letter c1 c2 && eq_ci r1 r2
  | _, _ => false
  end.

(** The 256 characters. *)
Definition all_chars : list ascii := map ascii_of_nat (seq 0 256).

(** [repr] of a string, which the messages of [strptime] quote. *)
Definition single_quote : ascii := ascii_of_N 39.
Definition double_quote : ascii := ascii_of_N 34.
Definition backslash : ascii := ascii_of_N 92.

(** [c in s] for a character. *)
Fixpoint contains (c : ascii) (s : string) : bool :=
  match s with
  | EmptyString => false
  | String c' s' => Ascii.eqb c c' || contains c s'
  end.

(** A hexadecimal digit, in lower case. *)
Definition hex_digit (n : N) : ascii :=
  if (n <? 10)%N then ascii_of_N (48 + n) else ascii_of_N (87 + n).

(** A code point that [repr] writes as it is: the printable ones. *)
Definition printable (n : N) : bool :=
  (((32 <=? n) && (n <? 127)) ||
   ((161 <=? n) && (n <=? 255) && negb (n =? 173)))%N.

Fixpoint repr_body (quote : ascii) (s : string) : string :=
  match s with
  | EmptyString => String quote EmptyString
  | String c s' =>
      let n := N_of_ascii c in
      let rest := repr_body quote s' in
      if Ascii.eqb c quote || Ascii.eqb c backslash
      then String backslash (String c rest)
      else if (n =? 9)%N then String backslash (String "t" rest)
      else if (n =? 10)%N then String backslash (String "n" rest)
      else if (n =? 13)%N then String backslash (String "r" rest)
      else if printable n then String c rest
      else String backslash
             (String "x" (String (hex_digit (n / 16))
                                 (String (hex_digit (n mod 16)) rest)))
  end.

(** [repr(s)]: in single quotes, unless the string has a single quote
    and no double quote. *)
Definition repr (s : string) : string :=
  let quote := if contains single_quote s && negb (contains double_quote s)
               then double_quote else single_quote in
  String quote (repr_body quote s).

(** Truth value of a string in a condition: empty strings are false. *)
Definition truthy (s : string) : bool :=
  match s with
  | EmptyString => false
  | String _ _ => true
  end.

End PyStr.

(** ** Floats: IEEE 754 binary64 *)

Module Float64.

Definition prec : Z := 53.
Definition emax : Z := 1024.

Definition float : Type := spec_float.

Definition zero : float := S754_zero false.
Definition add (x y : float) : float := SFadd prec emax x y.
Definition sub (x y : float) : float := SFsub prec emax x y.
Definition leb (x y : float) : bool := SFleb x y.
Definition ltb (x y : float) : bool := SFltb x y.

(** Conversion of an integer, rounding to nearest, ties to even. *)
Definition of_Z (z : Z) : float := binary_normalize prec emax z 0 false.

Definition is_nan (x : float) : bool :=
  match x with
  | S754_nan => true
  | _ => false
  end.

Definition is_infinite (x : float) : bool :=
  match x with
  | S754_infinity _ => true
  | _ => false
  end.

Definition is_finite (x : float) : bool :=
  match x with
  | S754_zero _ | S754_finite _ _ _ => true
  | _ => false
  end.

(** The truth value of a float: any float but the two zeros. *)
Definition nonzero (x : float) : bool :=
  match x with
  | S754_zero _ => false
  | _ => true
  end.

Definition abs (x : float) : float := SFabs x.

(** [x == y] on floats: a NaN equals nothing, the two zeros are equal. *)
Definition eqb (x y : float) : bool := SFeqb x y.

(** [int(x)] for a finite [x]: its integer part. *)
Definition trunc (x : float) : Z :=
  match x with
  | S754_finite s m e =>
      let n := if 0 <=? e then Z.pos m * 2 ^ e else Z.pos m / 2 ^ (- e) in
      if s then - n else n
  | _ => 0
  end.

(** [x.is_integer()] *)
Definition is_integer (x : float) : bool :=
  match x with
  | S754_zero _ => true
  | S754_finite _ m e => (0 <=? e) || (Z.pos m mod 2 ^ (- e) =? 0)
  | _ => false
  end.

(** A whole number: the float of its integer part. *)
Definition whole (x : float) : Prop := x = of_Z (trunc x).

(** How a whole number below 2^53 is represented: the digits of the
    integer, shifted left to fill the 53 digits of the mantissa. *)
Definition shl (p : positive) (k : nat) : positive := Nat.iter k xO p.

Definition mant (p : positive) : positive :=
  shl p (Z.to_nat (53 - Z.pos (digits2_pos p))).

Definition expo (p : positive) : Z := Z.pos (digits2_pos p) - 53.

Definition canon (z : Z) : float :=
  match z with
  | Z0 => S754_zero false
  | Z.pos p => S754_finite false (mant p) (expo p)
  | Z.neg p => S754_finite true (mant p) (expo p)
  end.

(** The sign and the absolute value of a nonzero integer. *)
Definition sign_of (z : Z) : bool := z <? 0.
Definition pos_of (z : Z) : positive := Z.to_pos (Z.abs z).

End Float64.

Abbreviation float := Float64.float.

(** ** Python values and numbers *)

Inductive pyval : Type :=
| PyNone
| PyBool (b : bool)
| PyInt (z : Z)
| PyFloat (f : float)
| PyStr (s : string).

(** The numbers: what [isinstance(v, (int, float))] accepts, and what
    arithmetic on amounts and totals produces. *)
Inductive num : Type :=
| NInt (z : Z)
| NFloat (f : float).

(** [isinstance(v, (int, float))], with the number when it holds. *)
Definition as_number (v : pyval) : option num :=
  match v with
  | PyBool b => Some (NInt (if b then 1 else 0))
  | PyInt z => Some (NInt z)
  | PyFloat f => Some (NFloat f)
  | PyNone | PyStr _ => None
  end.

(** [n <= 0] and [n > 0]. A comparison with NaN is false. *)
Definition num_le0 (n : num) : bool :=
  match n with
  | NInt z => z <=? 0
  | NFloat f => Float64.leb f Float64.zero
  end.

Definition num_gt0 (n : num) : bool :=
  match n with
  | NInt z => 0 <? z
  | NFloat f => Float64.ltb Float64.zero f
  end.

(** [float(n)]: an integer too large for a binary64 raises. *)
Definition num_to_float (n : num) : result float :=
  match n with
  | NFloat f => Ok f
  | NInt z =>
      let f := Float64.of_Z z in
      if Float64.is_infinite f
      then Raise (OverflowError "int too large to convert to float")
      else Ok f
  end.

(** Mixed arithmetic converts the integer operand. The only integer
    operands of this program are the literal 0 of [sum] and of
    [dict.get], for which the conversion is exact. *)
Definition num_float (n : num) : float :=
  match n with
  | NInt z => Float64.of_Z z
  | NFloat f => f
  end.

(** [n + a] for a float [a]. *)
Definition add_float (n : num) (a : float) : float :=
  Float64.add (num_float n) a.

Definition num_sub (a b : num) : num :=
  match a, b with
  | NInt x, NInt y => NInt (x - y)
  | _, _ => NFloat (Float64.sub (num_float a) (num_float b))
  end.

(** [a == b] on numbers: an integer and a float are equal when the
    float is that integer exactly; a NaN equals nothing, itself
    included. *)
Definition py_eq (a b : num) : bool :=
  match a, b with
  | NInt x, NInt y => x =? y
  | NFloat f, NFloat g => Float64.eqb f g
  | NInt x, NFloat f | NFloat f, NInt x =>
      Float64.is_integer f && (Float64.trunc f =? x)
  end.

Definition num_is_nan (n : num) : bool :=
  match n with
  | NInt _ => false
  | NFloat f => Float64.is_nan f
  end.

(** The builtin [sum] on floats. It starts at the integer 0 and adds
    the first item to it. CPython then adds the other floats from left
    to right; from version 3.12 on it also carries the rounding errors
    in a compensation term (Neumaier's summation) that it adds at the
    end when the term is neither zero nor infinite nor a NaN. *)
Inductive sum_algorithm : Type :=
| LeftToRight
| Compensated.

Fixpoint compensated (l : list float) (f_result c : float) : float :=
  match l with
  | [] =>
      if Float64.nonzero c && Float64.is_finite c
      then Float64.add f_result c
      else f_result
  | x :: r =>
      let t := Float64.add f_result x in
      let c' :=
        if Float64.leb (Float64.abs x) (Float64.abs f_result)
        then Float64.add c (Float64.add (Float64.sub f_result t) x)
        else Float64.add c (Float64.add (Float64.sub x t) f_result) in
      compensated r t c'
  end.

Definition py_sum (alg : sum_algorithm) (l : list float) : num :=
  match l with
  | [] => NInt 0
  | x :: r =>
      let first := add_float (NInt 0) x in
      NFloat match alg with
             | LeftToRight => fold_left Float64.add r first
             | Compensated => compensated r first Float64.zero
             end
  end.

(** ** Dates: [strftime] and [strptime] with '%Y-%m-%d %H:%M:%S' *)

(** A [datetime.date] (what the date picker supplies) or a
    [datetime.datetime] (what [datetime.now] and [strptime] return). *)
Inductive pydate : Type :=
| PyDate (year month day : Z)
| PyDateTime (year month day hour minute second microsecond : Z).

Module PyTime.

Definition is_leap (y : Z) : bool :=
  ((y mod 4 =? 0) && negb (y mod 100 =? 0)) || (y mod 400 =? 0).

Definition days_in_month (y m : Z) : Z :=
  match m with
  | 2 => if is_leap y then 29 else 28
  | 4 | 6 | 9 | 11 => 30
  | _ => 31
  end.

(** The ranges the constructors of [date] and [datetime] enforce. *)
Definition date_ok (y m d : Z) : bool :=
  (1 <=? y) && (y <=? 9999) && (1 <=? m) && (m <=? 12) &&
  (1 <=? d) && (d <=? days_in_month y m).

Definition time_ok (hh mm ss us : Z) : bool :=
  (0 <=? hh) && (hh <? 24) && (0 <=? mm) && (mm <? 60) &&
  (0 <=? ss) && (ss <? 60) && (0 <=? us) && (us <? 1000000).

Definition pydate_ok (d : pydate) : bool :=
  match d with
  | PyDate y m d => date_ok y m d
  | PyDateTime y m d hh mm ss us => date_ok y m d && time_ok hh mm ss us
  end.

Definition digit (n : Z) : ascii := ascii_of_N (Z.to_N (48 + n mod 10)).

Definition pad2 (n : Z) (rest : string) : string :=
  String (digit (n / 10)) (String (digit n) rest).

Definition pad4 (n : Z) (rest : string) : string :=
  String (digit (n / 1000)) (String (digit (n / 100)) (pad2 n rest)).

(** The year of [%Y] as the C library prints it: padded to four digits,
    or, with glibc, the number as it is. *)
Definition plain_year (y : Z) (rest : string) : string :=
  if y <? 10 then String (digit y) rest
  else if y <? 100 then pad2 y rest
  else if y <? 1000 then String (digit (y / 100)) (pad2 y rest)
  else pad4 y rest.

Definition format_fields (year_padded : bool) (y m d hh mm ss : Z) : string :=
  (if year_padded then pad4 y else plain_year y)
    (String "-" (pad2 m (String "-" (pad2 d (String " "
      (pad2 hh (String ":" (pad2 mm (String ":" (pad2 ss "")))))))))).

(** [d.strftime('%Y-%m-%d %H:%M:%S')]; a [date] prints midnight and
    the microseconds are not printed. *)
Definition strftime (year_padded : bool) (d : pydate) : string :=
  match d with
  | PyDate y m d => format_fields year_padded y m d 0 0 0
  | PyDateTime y m d hh mm ss _ => format_fields year_padded y m d hh mm ss
  end.

Definition digit_val (c : ascii) : option Z :=
  let n := Z.of_N (N_of_ascii c) in
  if (48 <=? n) && (n <=? 57) then Some (n - 48) else None.

(** White space for [\s]: the characters for which [str.isspace] holds. *)
Definition is_space (c : ascii) : bool :=
  let n := Z.of_N (N_of_ascii c) in
  ((9 <=? n) && (n <=? 13)) || ((28 <=? n) && (n <=? 32)) ||
  (n =? 133) || (n =? 160).

(** The ways in which a piece of the pattern matches at the head of a
    text, in the order in which the engine tries them: the value read
    and the text that remains. *)
Definition matches (A : Type) : Type := list (A * list ascii).

(** The first of them is the one that the engine finds. *)
Definition first_match {A : Type} (m : matches A) (x : A * list ascii)
  : Prop :=
  exists tl, m = x :: tl.

(** Two digits, or one digit, that satisfy a condition. *)
Definition two (p : Z -> Z -> bool) (s : list ascii) : matches Z :=
  match s with
  | c1 :: c2 :: r =>
      match digit_val c1, digit_val c2 with
      | Some a, Some b => if p a b then [(10 * a + b, r)] else []
      | _, _ => []
      end
  | _ => []
  end.

Definition one (p : Z -> bool) (s : list ascii) : matches Z :=
  match s with
  | c :: r =>
      match digit_val c with
      | Some a => if p a then [(a, r)] else []
      | None => []
      end
  | [] => []
  end.

Definition space_one (p : Z -> bool) (s : list ascii) : matches Z :=
  match s with
  | c :: r => if Ascii.eqb c " " then one p r else []
  | [] => []
  end.

Definition lit (c : ascii) (s : list ascii) : matches unit :=
  match s with
  | c' :: r => if Ascii.eqb c' c then [(tt, r)] else []
  | [] => []
  end.

(** [\s+]: the longest run first. *)
Fixpoint spaces (s : list ascii) : matches unit :=
  match s with
  | c :: r => if is_space c then (spaces r ++ [(tt, r)])%list else []
  | [] => []
  end.

Definition any (_ : Z) : bool := true.

(** [\d\d\d\d] *)
Definition field_Y (s : list ascii) : matches Z :=
  match s with
  | c1 :: c2 :: c3 :: c4 :: r =>
      match digit_val c1, digit_val c2, digit_val c3, digit_val c4 with
      | Some a, Some b, Some c, Some d =>
          [(1000 * a + 100 * b + 10 * c + d, r)]
      | _, _, _, _ => []
      end
  | _ => []
  end.

(** [1[0-2]|0[1-9]|[1-9]] *)
Definition field_m (s : list ascii) : matches Z :=
  (two (fun a b => (a =? 1) && (b <=? 2)) s ++
   two (fun a b => (a =? 0) && (1 <=? b)) s ++
   one (fun a => 1 <=? a) s)%list.

(** [3[0-1]|[1-2]\d|0[1-9]|[1-9]| [1-9]] *)
Definition field_d (s : list ascii) : matches Z :=
  (two (fun a b => (a =? 3) && (b <=? 1)) s ++
   two (fun a _ => (1 <=? a) && (a <=? 2)) s ++
   two (fun a b => (a =? 0) && (1 <=? b)) s ++
   one (fun a => 1 <=? a) s ++
   space_one (fun a => 1 <=? a) s)%list.

(** [2[0-3]|[0-1]\d|\d] *)
Definition field_H (s : list ascii) : matches Z :=
  (two (fun a b => (a =? 2) && (b <=? 3)) s ++
   two (fun a _ => a <=? 1) s ++
   one any s)%list.

(** [[0-5]\d|\d] *)
Definition field_M (s : list ascii) : matches Z :=
  (two (fun a _ => a <=? 5) s ++ one any s)%list.

(** [6[0-1]|[0-5]\d|\d] *)
Definition field_S (s : list ascii) : matches Z :=
  (two (fun a b => (a =? 6) && (b <=? 1)) s ++
   two (fun a _ => a <=? 5) s ++
   one any s)%list.

(** One piece of the pattern followed by the rest of it. *)
Definition and_then {A B : Type} (m : matches A)
    (k : A -> list ascii -> matches B) : matches B :=
  flat_map (fun ar => k (fst ar) (snd ar)) m.

(** The pattern that [strptime] compiles from '%Y-%m-%d %H:%M:%S'. *)
Definition pattern (s : list ascii) : matches (Z * Z * Z * Z * Z * Z) :=
  and_then (field_Y s) (fun y s =>
  and_then (lit "-" s) (fun _ s =>
  and_then (field_m s) (fun m s =>
  and_then (lit "-" s) (fun _ s =>
  and_then (field_d s) (fun d s =>
  and_then (spaces s) (fun _ s =>
  and_then (field_H s) (fun hh s =>
  and_then (lit ":" s) (fun _ s =>
  and_then (field_M s) (fun mm s =>
  and_then (lit ":" s) (fun _ s =>
  and_then (field_S s) (fun ss s =>
  [((y, m, d, hh, mm, ss), s)]))))))))))).

Definition no_match (data : string) : exn :=
  ValueError ("time data " ++ PyStr.repr data ++
              " does not match format '%Y-%m-%d %H:%M:%S'").
Definition unconverted (rest : list ascii) : exn :=
  ValueError ("unconverted data remains: " ++ string_of_list_ascii rest).
Definition year_out_of_range : exn :=
  ValueError "year 0 is out of range".
Definition day_out_of_range : exn :=
  ValueError "day is out of range for month".
Definition second_out_of_range : exn :=
  ValueError "second must be in 0..59".

(** [datetime.strptime(data, '%Y-%m-%d %H:%M:%S')]: the first way in
    which the pattern matches at the head of the text decides; the text
    must end there, and the fields must make a date and a time. *)
Definition strptime (data : string) : result pydate :=
  match pattern (list_ascii_of_string data) with
  | [] => Raise (no_match data)
  | ((y, m, d, hh, mm, ss), rest) :: _ =>
      match rest with
      | _ :: _ => Raise (unconverted rest)
      | [] =>
          if y =? 0 then Raise year_out_of_range
          else if days_in_month y m <? d then Raise day_out_of_range
          else if 60 <=? ss then Raise second_out_of_range
          else Ok (PyDateTime y m d hh mm ss 0)
      end
  end.

(** A date at the precision of the stored text: whole seconds. *)
Definition at_seconds (d : pydate) : pydate :=
  match d with
  | PyDate y m d => PyDateTime y m d 0 0 0 0
  | PyDateTime y m d hh mm ss _ => PyDateTime y m d hh mm ss 0
  end.

End PyTime.

(** ** class Transaction *)

Record Transaction : Type := mkTransaction {
  amount : float;
  category : string;
  type : string;
  date : pydate
}.

Definition valid_types : list string := ["expense"; "income"].

(** [x in l] on a list of strings. *)
Definition str_in (x : string) (l : list string) : bool :=
  existsb (String.eqb x) l.

(** [Transaction.__init__(amount, category, transac_type, date)]; [now]
    is what [datetime.now()] returns at the call. *)
Definition Transaction_init (amount : pyval) (category transac_type : string)
    (date : option pydate) (now : pydate) : result Transaction :=
  match as_number amount with
  | None => Raise InvalidAmount
  | Some n =>
      if num_le0 n then Raise InvalidAmount
      else if negb (str_in (PyStr.lower transac_type) valid_types)
      then Raise InvalidKind
      else
        let date := match date with
                    | None => now
                    | Some d => d
                    end in
        a <- num_to_float n ;;
        Ok {| amount := a;
              category := category;
              type := PyStr.lower transac_type;
              date := date |}
  end.

(** ** Dictionaries from category to amount

    A Python [dict] keeps its keys in insertion order, and the order
    matters for what [sum(d.values())] rounds to: an association list
    without repeated keys, new keys at the end. The values of the two
    dictionaries of this program are floats, each the result of adding
    a float. *)

Module PyDict.

Definition dict : Type := list (string * float).

Fixpoint lookup (d : dict) (k : string) : option float :=
  match d with
  | [] => None
  | (k', v) :: r => if String.eqb k' k then Some v else lookup r k
  end.

(** [d.get(k, default)] *)
Definition get (d : dict) (k : string) (default : num) : num :=
  match lookup d k with
  | Some v => NFloat v
  | None => default
  end.

(** [d[k] = v] *)
Fixpoint set (d : dict) (k : string) (v : float) : dict :=
  match d with
  | [] => [(k, v)]
  | (k', v') :: r =>
      if String.eqb k' k then (k', v) :: r else (k', v') :: set r k v
  end.

Definition keys (d : dict) : list string := map fst d.
Definition values (d : dict) : list float := map snd d.

End PyDict.

(** ** The table [transactions] of [finance.db] *)

Module Sqlite.

(** A row; [row_amount] is [None] for SQL NULL. *)
Record Row : Type := mkRow {
  id : Z;
  row_amount : option float;
  row_category : string;
  row_type : string;
  row_date : string
}.

Definition table : Type := list Row.

(** Binding a float to a parameter: a NaN is stored as NULL. *)
Definition bind_real (f : float) : option float :=
  if Float64.is_nan f then None else Some f.

(** The Python value of a REAL column. *)
Definition real_value (a : option float) : pyval :=
  match a with
  | Some f => PyFloat f
  | None => PyNone
  end.

(** The integers of 64 bits: the values of an INTEGER column and of a
    [rowid]. *)
Definition max_rowid : Z := 2 ^ 63 - 1.
Definition min_rowid : Z := - 2 ^ 63.

Definition in_int64 (z : Z) : bool := (min_rowid <=? z) && (z <=? max_rowid).

Fixpoint largest (l : list Z) : option Z :=
  match l with
  | [] => None
  | i :: r =>
      match largest r with
      | None => Some i
      | Some m => Some (Z.max i m)
      end
  end.

Definition rowids (t : table) : list Z := map id t.

(** The largest [rowid] in use, 0 for an empty table: the next row gets
    the number after it, when there is one. *)
Definition top_rowid (t : table) : Z :=
  match largest (rowids t) with
  | None => 0
  | Some m => m
  end.

(** A table that has not used the largest [rowid], and one in which
    [n] more rows find their numbers after the largest in use. *)
Definition has_room (t : table) : bool := top_rowid t <? max_rowid.

Definition room_for (t : table) (n : nat) : bool :=
  top_rowid t + Z.of_nat n <=? max_rowid.

Definition database_full : exn :=
  OperationalError "database or disk is full".

(** The [rowid] given to an inserted row: 1 in an empty table, else one
    more than the largest in use. When the largest in use is the
    largest there is, the engine tries positive numbers at random:
    [random_rowid] is the unused one that it finds, if it finds one. *)
Definition new_rowid (random_rowid : list Z -> option Z) (t : table)
  : result Z :=
  match largest (rowids t) with
  | None => Ok 1
  | Some m =>
      if m <? max_rowid then Ok (m + 1)
      else
        match random_rowid (rowids t) with
        | Some i =>
            if (1 <=? i) && (i <=? max_rowid) &&
               negb (existsb (Z.eqb i) (rowids t))
            then Ok i
            else Raise database_full
        | None => Raise database_full
        end
  end.

(** A row at its place in [rowid] order. *)
Fixpoint place (r : Row) (t : table) : table :=
  match t with
  | [] => [r]
  | r' :: rest => if id r <? id r' then r :: t else r' :: place r rest
  end.

(** [INSERT INTO transactions (amount, category, type, date) VALUES ...] *)
Definition insert (random_rowid : list Z -> option Z) (t : table)
    (a : float) (c ty d : string) : result table :=
  i <- new_rowid random_rowid t ;;
  Ok (place {| id := i; row_amount := bind_real a;
               row_category := c; row_type := ty; row_date := d |} t).

(** [DELETE FROM transactions WHERE id = ?] *)
Definition delete (t : table) (i : Z) : table :=
  filter (fun r => negb (id r =? i)) t.

End Sqlite.

Import Sqlite.

(** ** The platform

    What the program leaves to the machine it runs on: whether the C
    library pads the year of [%Y] to four digits (glibc does not), and
    the [rowid] that the database engine finds for a new row of a table
    that has used the largest one. *)
Record platform : Type := mkPlatform {
  year_padded : bool;
  random_rowid : list Z -> option Z
}.

(** ** class FinanceManager *)

(** The manager with what it acts on: its list [self.transactions], the
    table of [finance.db], and the error dialogs it has shown (title and
    text of each [messagebox.showerror]). *)
Record Ledger : Type := mkLedger {
  transactions : list Transaction;
  finance_db : table;
  errors_shown : list (string * string)
}.

Definition with_transactions (s : Ledger) (l : list Transaction) : Ledger :=
  {| transactions := l;
     finance_db := finance_db s;
     errors_shown := errors_shown s |}.

(** The loop of [load_transactions]: each row is parsed, validated and
    appended to the list as it stands. An exception leaves the rows
    appended so far in the list. *)
Fixpoint load_rows (rows : table) (now : pydate) (txs : list Transaction)
  : list Transaction * result unit :=
  match rows with
  | [] => (txs, Ok tt)
  | r :: rest =>
      match PyTime.strptime (row_date r) with
      | Raise e => (txs, Raise e)
      | Ok d =>
          match Transaction_init (real_value (row_amount r))
                  (row_category r) (row_type r) (Some d) now with
          | Raise e => (txs, Raise e)
          | Ok t => load_rows rest now (txs ++ [t])%list
          end
      end
  end.

Definition load_transactions (s : Ledger) (now : pydate)
  : Ledger * result unit :=
  let (txs, r) := load_rows (finance_db s) now (transactions s) in
  (with_transactions s txs, r).

(** [FinanceManager()] on the table found in [finance.db] (empty when
    the file is new). *)
Definition FinanceManager_init (db : table) (now : pydate)
  : Ledger * result unit :=
  load_transactions
    {| transactions := []; finance_db := db; errors_shown := [] |} now.

(** The [INSERT] of [add_transaction], with the values it binds. *)
Definition insert_transaction (os : platform) (db : table) (t : Transaction)
  : result table :=
  insert (random_rowid os) db (amount t) (category t) (type t)
    (PyTime.strftime (year_padded os) (date t)).

Definition show_error (s : Ledger) (msg : string) : Ledger :=
  {| transactions := transactions s;
     finance_db := finance_db s;
     errors_shown := (errors_shown s ++ [("Error", msg)])%list |}.

(** The body of the [try] of [add_transaction]: the transaction is
    appended to the list before the [INSERT] runs. *)
Definition try_add (os : platform) (s : Ledger) (amount : pyval)
    (category trans_type : string) (date : option pydate) (now : pydate)
  : Ledger * result bool :=
  match Transaction_init amount category trans_type date now with
  | Raise e => (s, Raise e)
  | Ok t =>
      let s1 := with_transactions s (transactions s ++ [t])%list in
      match insert_transaction os (finance_db s1) t with
      | Raise e => (s1, Raise e)
      | Ok db =>
          ({| transactions := transactions s1;
              finance_db := db;
              errors_shown := errors_shown s1 |}, Ok true)
      end
  end.

(** [add_transaction]: a [ValueError] is shown and answered with
    [False]; any other exception goes on to the caller. *)
Definition add_transaction (os : platform) (s : Ledger) (amount : pyval)
    (category trans_type : string) (date : option pydate) (now : pydate)
  : Ledger * result bool :=
  match try_add os s amount category trans_type date now with
  | (s', Raise (ValueError msg)) => (show_error s' msg, Ok false)
  | (s', r) => (s', r)
  end.

Definition is_income (t : Transaction) : bool := String.eqb (type t) "income".
Definition is_expense (t : Transaction) : bool := String.eqb (type t) "expense".

Definition amounts (l : list Transaction) : list float := map amount l.

Section Totals.

(** The summation of the interpreter that runs the program. *)
Variable alg : sum_algorithm.

Definition get_total_income (s : Ledger) : num :=
  py_sum alg (amounts (filter is_income (transactions s))).

Definition get_total_expenses (s : Ledger) : num :=
  py_sum alg (amounts (filter is_expense (transactions s))).

Definition get_balance (s : Ledger) : num :=
  num_sub (get_total_income s) (get_total_expenses s).

End Totals.

(** [t.category.lower() == c.lower()] *)
Definition category_matches (c : string) (t : Transaction) : bool :=
  String.eqb (PyStr.lower (category t)) (PyStr.lower c).

(** [category] is [None] or a string; [None] and the empty string are
    both false in [if category:]. *)
Definition get_transactions_by_category (s : Ledger)
    (category : option string) : list Transaction :=
  match category with
  | Some c =>
      if PyStr.truthy c
      then filter (category_matches c) (transactions s)
      else transactions s
  | None => transactions s
  end.

(** [d[k] = d.get(k, 0) + a] *)
Definition accumulate (d : PyDict.dict) (k : string) (a : float) : PyDict.dict :=
  PyDict.set d k (add_float (PyDict.get d k (NInt 0)) a).

Definition category_step (acc : PyDict.dict * PyDict.dict) (t : Transaction)
  : PyDict.dict * PyDict.dict :=
  let (expense_categories, income_categories) := acc in
  if is_expense t
  then (accumulate expense_categories (category t) (amount t),
        income_categories)
  else (expense_categories,
        accumulate income_categories (category t) (amount t)).

Definition get_category_totals (s : Ledger) : PyDict.dict * PyDict.dict :=
  fold_left category_step (transactions s) ([], []).

Definition int_too_large : exn :=
  OverflowError "Python int too large to convert to SQLite INTEGER".

(** [transaction_id] is bound to the parameter of the [DELETE], which
    raises for an integer that does not fit 64 bits, and is compared
    with the [id] column; a value that is the id of no row removes
    nothing. The list is not emptied before the load. *)
Definition delete_transaction (s : Ledger) (transaction_id : Z)
    (now : pydate) : Ledger * result unit :=
  if in_int64 transaction_id
  then
    load_transactions
      {| transactions := transactions s;
         finance_db := delete (finance_db s) transaction_id;
         errors_shown := errors_shown s |} now
  else (s, Raise int_too_large).

(** ** Ledger states of a session *)

Section Session.

(** The machine of the session. *)
Variable os : platform.

(** One call of the manager from the interface. The state after a call
    that raised is kept: the interface reports the exception and goes on. *)
Inductive step : Ledger -> Ledger -> Prop :=
| step_add s amount category trans_type date now :
    step s (fst (add_transaction os s amount category trans_type date now))
| step_delete s transaction_id now :
    step s (fst (delete_transaction s transaction_id now)).

Inductive reachable : Ledger -> Prop :=
| reachable_init db now s :
    FinanceManager_init db now = (s, Ok tt) -> reachable s
| reachable_step s s' :
    reachable s -> step s s' -> reachable s'.

End Session.

(** ** The vocabulary of the specification *)

(** An amount that is not a positive number: not numeric at all, or
    [amount <= 0]. *)
Definition not_positive (v : pyval) : bool :=
  match as_number v with
  | None => true
  | Some n => num_le0 n
  end.

(** A positive numeric amount. *)
Definition positive_number (v : pyval) : bool :=
  match as_number v with
  | None => false
  | Some n => num_gt0 n
  end.

(** A valid amount: a positive number that [float] can represent. *)
Definition valid_amount (v : pyval) : bool :=
  match as_number v with
  | None => false
  | Some n =>
      num_gt0 n && match num_to_float n with
                   | Ok _ => true
                   | Raise _ => false
                   end
  end.

(** A kind in {expense, income}, compared case-insensitively. *)
Definition known_kind (k : string) : bool :=
  PyStr.eq_ci k "expense" || PyStr.eq_ci k "income".

(** What the constructor guarantees of a transaction it returns. *)
Definition wf_transaction (t : Transaction) : bool :=
  str_in (type t) valid_types && negb (Float64.leb (amount t) Float64.zero).

(** The transactions of a list that carry exactly the label [c]. *)
Definition labelled (c : string) (l : list Transaction) : list Transaction :=
  filter (fun t => String.eqb (category t) c) l.

(** The total of a group of transactions, added one by one from the
    integer 0: absent when the group is empty. *)
Definition group_total (l : list Transaction) : option float :=
  match l with
  | [] => None
  | t :: r =>
      Some (fold_left Float64.add (amounts r) (add_float (NInt 0) (amount t)))
  end.

(** The entries of a mapping whose key matches a label case-insensitively. *)
Definition entries_for (d : PyDict.dict) (c : string) : PyDict.dict :=
  filter (fun kv => PyStr.eq_ci (fst kv) c) d.

(** A mapping holds, under distinct keys, the totals by label of the
    transactions that satisfy [p]. *)
Definition by_label (p : Transaction -> bool) (l : list Transaction)
    (d : PyDict.dict) : Prop :=
  NoDup (PyDict.keys d) /\
  forall c, PyDict.lookup d c = group_total (labelled c (filter p l)).

(** The entry of a transaction that is alone under its label. *)
Definition entry (t : Transaction) : string * float :=
  (category t, amount t).

(** A transaction as a load of its row gives it back: the date at whole
    seconds. *)
Definition stored (t : Transaction) : Transaction :=
  {| amount := amount t;
     category := category t;
     type := type t;
     date := PyTime.at_seconds (date t) |}.

Definition date_year (d : pydate) : Z :=
  match d with
  | PyDate y _ _ => y
  | PyDateTime y _ _ _ _ _ _ => y
  end.

(** A well-formed date that the platform writes with a year of four
    digits: the year is 1000 or later, or the C library pads it. *)
Definition written_in_full (os : platform) (d : pydate) : bool :=
  PyTime.pydate_ok d && (year_padded os || (1000 <=? date_year d)).

(** Amounts that are whole numbers, and their sum as integers. *)
Definition amount_Z (t : Transaction) : Z := Float64.trunc (amount t).

Definition whole_amount (t : Transaction) : Prop :=
  Float64.whole (amount t).

Definition total_Z (l : list Transaction) : Z :=
  fold_right Z.add 0 (map amount_Z l).

(** A mapping whose values are whole numbers above zero, with their
    sum as integers. *)
Definition whole_values (d : PyDict.dict) (total : Z) : Prop :=
  Forall (fun v => Float64.whole v /\ 0 < Float64.trunc v)
         (PyDict.values d) /\
  fold_right Z.add 0 (map Float64.trunc (PyDict.values d)) = total.

(** Statements of the specification that the code does not satisfy as
    they are written. *)


Definition filter_is_case_insensitive_match : Prop :=
  forall s c,
    get_transactions_by_category s (Some c) =
    filter (fun t => PyStr.eq_ci (category t) c) (transactions s).

Definition delete_rebuilds_from_storage : Prop :=
  forall s transaction_id now s',
    delete_transaction s transaction_id now = (s', Ok tt) ->
    FinanceManager_init (finance_db s') now =
    ({| transactions := transactions s';
        finance_db := finance_db s';
        errors_shown := [] |}, Ok tt).

Definition totals_group_case_insensitively : Prop :=
  forall s t,
    In t (transactions s) ->
    List.length (entries_for (if is_expense t
                         then fst (get_category_totals s)
                         else snd (get_category_totals s))
                        (category t)) = 1%nat.

Definition balance_equals_difference (alg : sum_algorithm) : Prop :=
  forall os s,
    reachable os s ->
    py_eq (get_balance alg s)
          (num_sub (get_total_income alg s) (get_total_expenses alg s))
    = true.

Definition added_transaction_reloads (os : platform) : Prop :=
  forall s a c k d now now' t,
    reachable os s ->
    valid_amount a = true ->
    Transaction_init a c k d now = Ok t ->
    PyTime.pydate_ok (date t) = true ->
    exists txs,
      FinanceManager_init
        (finance_db (fst (add_transaction os s a c k d now))) now' =
      ({| transactions := (txs ++ [stored t])%list;
          finance_db := finance_db (fst (add_transaction os s a c k d now));
          errors_shown := [] |}, Ok tt).

Definition category_sums_equal_totals (alg : sum_algorithm) : Prop :=
  forall s,
    Forall (fun t => str_in (type t) valid_types = true) (transactions s) ->
    py_sum alg (PyDict.values (fst (get_category_totals s)))
      = get_total_expenses alg s /\
    py_sum alg (PyDict.values (snd (get_category_totals s)))
      = get_total_income alg s.

(** ** Sample data *)

Module Sample.

(** A machine with glibc, and one whose C library pads the year. *)
Definition os : platform :=
  {| year_padded := false; random_rowid := fun _ => None |}.

Definition padded : platform :=
  {| year_padded := true; random_rowid := fun _ => None |}.

Definition now : pydate := PyDateTime 2024 1 5 10 30 15 123456.

Definition fresh : Ledger := fst (FinanceManager_init [] now).

Definition add (s : Ledger) (a : Z) (c k : string) : Ledger :=
  fst (add_transaction os s (PyFloat (Float64.of_Z a)) c k None now).

(** A salary and a rent, as in the examples of the specification. *)
Definition salary_rent : Ledger :=
  fst (add_transaction os
         (fst (add_transaction os fresh (PyInt 1200) "Salary" "income"
                 (Some (PyDate 2024 1 5)) now))
         (PyInt 300) "Rent" "expense" (Some (PyDate 2024 1 6)) now).

(** One expense, stored in row 1. *)
Definition one_expense : Ledger := add fresh 10 "Food" "expense".

(** Two expenses whose labels differ only in case. *)
Definition food_twice : Ledger :=
  add (add fresh 10 "Food" "expense") 5 "food" "expense".

(** One large expense and four small ones, under two labels. *)
Definition large_small : Ledger :=
  add (add (add (add (add fresh (10 ^ 16) "a" "expense")
                     1 "b" "expense") 1 "b" "expense")
           1 "a" "expense") 1 "a" "expense".

(** Incomes and expenses, with labels that come back. *)
Definition household : Ledger :=
  add (add (add (add (add fresh 1200 "Salary" "income")
                     300 "Rent" "expense") 45 "Food" "expense")
           150 "Salary" "income") 55 "Food" "expense".

(** An income and an expense without bound. *)
Definition infinite : Ledger :=
  fst (add_transaction os
         (fst (add_transaction os fresh (PyFloat (S754_infinity false))
                 "Prize" "income" None now))
         (PyFloat (S754_infinity false)) "Debt" "expense" None now).

(** A NaN as the first amount, on the machine that pads the year. *)
Definition nan_first : Ledger :=
  fst (add_transaction padded fresh (PyFloat S754_nan) "Food" "expense"
         None now).

End Sample.

(** ** The rest of the manager and of the interface *)

(** [self.transactions[-5:]], the transactions that [show_summary]
    prints after the totals. *)
Definition recent_transactions (s : Ledger) : list Transaction :=
  skipn (List.length (transactions s) - 5) (transactions s).

Definition date_month (d : pydate) : Z :=
  match d with
  | PyDate _ m _ => m
  | PyDateTime _ m _ _ _ _ _ => m
  end.

(** [t.date.month == current_month and t.date.year == current_year] *)
Definition in_month (current_month current_year : Z) (t : Transaction) : bool :=
  (date_month (date t) =? current_month) &&
  (date_year (date t) =? current_year).

(** The six numbers that [update_summary_panel] writes on its labels;
    [now1] and [now2] are the two readings of [datetime.now()], the
    first for the month and the second for the year. *)
Record summary : Type := mkSummary {
  total_income : num;
  total_expenses : num;
  balance : num;
  month_income : num;
  month_expenses : num;
  month_balance : num
}.

Section Summary.

Variable alg : sum_algorithm.

Definition update_summary_panel (s : Ledger) (now1 now2 : pydate) : summary :=
  let total_income := get_total_income alg s in
  let total_expenses := get_total_expenses alg s in
  let balance := num_sub total_income total_expenses in
  let current_month := date_month now1 in
  let current_year := date_year now2 in
  let month_income :=
    py_sum alg (amounts (filter (fun t => is_income t &&
                                          in_month current_month current_year t)
                                (transactions s))) in
  let month_expenses :=
    py_sum alg (amounts (filter (fun t => is_expense t &&
                                          in_month current_month current_year t)
                                (transactions s))) in
  {| total_income := total_income;
     total_expenses := total_expenses;
     balance := balance;
     month_income := month_income;
     month_expenses := month_expenses;
     month_balance := num_sub month_income month_expenses |}.

End Summary.

(** ** More vocabulary *)

(** The table mirrors the list: a load of the table gives the
    transactions of the list, each as it is stored. *)
Definition mirrors (s : Ledger) : Prop :=
  forall now, load_rows (finance_db s) now [] =
              (map stored (transactions s), Ok tt).

(** The arguments of one call of [add_transaction], and a sequence of
    calls. *)
Record add_call : Type := mkCall {
  call_amount : pyval;
  call_category : string;
  call_type : string;
  call_date : option pydate;
  call_now : pydate
}.

Definition add_calls (os : platform) (s : Ledger) (calls : list add_call)
  : Ledger :=
  fold_left (fun s c =>
               fst (add_transaction os s (call_amount c) (call_category c)
                      (call_type c) (call_date c) (call_now c)))
            calls s.

(** A call whose amount is no NaN and whose date is a well-formed date
    that the platform writes with a year of four digits. *)
Definition storable (os : platform) (c : add_call) : bool :=
  match call_amount c with
  | PyFloat f => negb (Float64.is_nan f)
  | _ => true
  end &&
  written_in_full os match call_date c with
                     | None => call_now c
                     | Some d => d
                     end.

(** An integer too large for a float. *)
Definition too_large (z : Z) : bool := Float64.is_infinite (Float64.of_Z z).

(** The keys in the order in which they are first seen. *)
Definition first_seen (l : list string) : list string :=
  fold_left (fun acc k => if str_in k acc then acc else (acc ++ [k])%list)
            l [].

(** Ids that are positive and grow along the table. *)
Fixpoint increasing_from (lo : Z) (l : list Z) : bool :=
  match l with
  | [] => true
  | x :: r => (lo <? x) && increasing_from x r
  end.

Definition ids_increasing (t : table) : bool :=
  increasing_from 0 (map id t).

(** The rows of a table that carry an id. *)
Definition rows_with_id (t : table) (i : Z) : table :=
  filter (fun r => id r =? i) t.


(** * Properties *)

(** ** Characters and strings *)

Module PyStrFacts.
Import PyStr.

Lemma in_all_chars (c : ascii) : In c all_chars.
Proof.
  rewrite <- (ascii_nat_embedding c).
  apply in_map, in_seq.
  pose proof (nat_ascii_bounded c); lia.
Qed.

(** A boolean property checked on the 256 characters holds of all. *)
Lemma by_cases (P : ascii -> bool) :
  forallb P all_chars = true -> forall c, P c = true.
Proof.
  intros H c. rewrite forallb_forall in H. apply H, in_all_chars.
Qed.

Lemma same_letter_lower (c1 c2 : ascii) :
  same_letter c1 c2 = Ascii.eqb (lower_char c1) (lower_char c2).
Proof.
  pose (P := fun a =>
    forallb (fun b => Bool.eqb (same_letter a b)
                        (Ascii.eqb (lower_char a) (lower_char b)))
            all_chars).
  assert (H : P c1 = true) by (apply by_cases; vm_compute; reflexivity).
  unfold P in H. rewrite forallb_forall in H.
  apply Bool.eqb_prop, H, in_all_chars.
Qed.

Lemma lower_char_idem (c : ascii) : lower_char (lower_char c) = lower_char c.
Proof.
  apply Ascii.eqb_eq. revert c. apply by_cases. vm_compute. reflexivity.
Qed.

Lemma lower_idem (s : string) : lower (lower s) = lower s.
Proof.
  induction s as [|c s IH]; simpl; [reflexivity|].
  now rewrite lower_char_idem, IH.
Qed.

(** The case-insensitive match is the equality of the lower-case forms. *)
Lemma eq_ci_lower (s1 s2 : string) :
  eq_ci s1 s2 = String.eqb (lower s1) (lower s2).
Proof.
  revert s2. induction s1 as [|c1 s1 IH]; intros [|c2 s2]; simpl;
    try reflexivity.
  now rewrite same_letter_lower, IH.
Qed.

Lemma eq_ci_refl (s : string) : eq_ci s s = true.
Proof. rewrite eq_ci_lower. apply String.eqb_refl. Qed.

End PyStrFacts.

(** The membership test of the constructor is the case-insensitive
    comparison with the two kinds. *)
Lemma str_in_valid_types (k : string) :
  str_in (PyStr.lower k) valid_types = known_kind k.
Proof.
  unfold known_kind. rewrite !PyStrFacts.eq_ci_lower. simpl.
  now rewrite orb_false_r.
Qed.

Lemma known_kind_iff (k : string) :
  known_kind k = true <->
  PyStr.lower k = "expense" \/ PyStr.lower k = "income".
Proof.
  unfold known_kind. rewrite !PyStrFacts.eq_ci_lower, orb_true_iff.
  now rewrite !String.eqb_eq.
Qed.

(** ** Numbers *)

(** A float above zero is not below or equal to it. *)
Lemma float_gt0_not_le0 (f : float) :
  Float64.ltb Float64.zero f = true -> Float64.leb f Float64.zero = false.
Proof.
  destruct f as [s | s | | s m e]; try destruct s; cbn; congruence.
Qed.

Lemma num_gt0_not_le0 (n : num) : num_gt0 n = true -> num_le0 n = false.
Proof.
  destruct n as [z | f]; simpl.
  - intros H. apply Z.ltb_lt in H. apply Z.leb_gt. exact H.
  - apply float_gt0_not_le0.
Qed.

(** Adding the integer 0 of [sum] or [dict.get] on the left leaves a
    float that is not a zero as it is. *)
Lemma add_zero_l (f : float) :
  Float64.leb f Float64.zero = false ->
  Float64.add (Float64.of_Z 0) f = f.
Proof.
  destruct f as [s | s | | s m e]; try destruct s; cbn; congruence.
Qed.

(** ** The constructor *)

(** What the constructor does once the amount has passed its check. *)
Lemma Transaction_init_checked amount n category kind date now :
  as_number amount = Some n ->
  num_le0 n = false ->
  Transaction_init amount category kind date now =
  if known_kind kind
  then a <- num_to_float n ;;
       Ok {| amount := a;
             category := category;
             type := PyStr.lower kind;
             date := match date with
                     | None => now
                     | Some d => d
                     end |}
  else Raise InvalidKind.
Proof.
  intros Hn Hle. unfold Transaction_init.
  rewrite Hn, Hle, str_in_valid_types.
  now destruct (known_kind kind).
Qed.

Lemma init_not_positive a c k d now :
  not_positive a = true -> Transaction_init a c k d now = Raise InvalidAmount.
Proof.
  unfold not_positive, Transaction_init.
  destruct (as_number a) as [n|]; [|reflexivity].
  now intros ->.
Qed.


(** What the check decides: an amount that is no number, or that is
    [<= 0], makes the construction fail with [InvalidAmount], whatever
    the other arguments; a positive numeric amount passes the check. *)
Lemma amount_check (amount : pyval) (category kind : string)
    (date : option pydate) (now : pydate) :
  (not_positive amount = true ->
   Transaction_init amount category kind date now = Raise InvalidAmount) /\
  (positive_number amount = true ->
   Transaction_init amount category kind date now <> Raise InvalidAmount).
Proof.
  split; [apply init_not_positive|].
  unfold positive_number.
  - destruct (as_number amount) as [n|] eqn:Hn; [|discriminate].
    intros Hpos. apply num_gt0_not_le0 in Hpos.
    rewrite (Transaction_init_checked _ n) by assumption.
    destruct (known_kind kind); [|discriminate].
    destruct n as [z | f]; simpl.
    + destruct (Float64.is_infinite (Float64.of_Z z)); discriminate.
    + discriminate.
Qed.

(** The amounts between the two: a number that is neither positive nor
    [<= 0] is a float NaN. *)
Lemma neither_is_nan (amount : pyval) :
  not_positive amount = false -> positive_number amount = false ->
  amount = PyFloat S754_nan.
Proof.
  unfold not_positive, positive_number.
  destruct amount as [| b | z | f | s]; cbn [as_number num_le0 num_gt0];
    try discriminate.
  - destruct b; discriminate.
  - intros H1 H2. apply Z.leb_gt in H1. apply Z.ltb_ge in H2. lia.
  - destruct f as [s | s | | s m e]; try destruct s; cbn; congruence.
Qed.

(** So the check refuses every amount that is not a positive number,
    but the NaN. *)
Lemma amount_refused_unless_nan (amount : pyval) (category kind : string)
    (date : option pydate) (now : pydate) :
  positive_number amount = false ->
  amount <> PyFloat S754_nan ->
  Transaction_init amount category kind date now = Raise InvalidAmount.
Proof.
  intros Hpos Hnan. apply init_not_positive.
  destruct (not_positive amount) eqn:E; [reflexivity|].
  now contradiction (neither_is_nan amount E Hpos).
Qed.

(** C1. The check of the amount is the comparison [amount <= 0] alone,
    and a comparison with a NaN is false: a NaN is not a positive
    number, but with a known kind the constructor accepts it, does not
    raise the [InvalidAmount] error whose message is 'Amount must be a
    positive number', and stores the NaN as the amount. *)
Theorem nan_amount_accepted (category kind : string)
    (date : option pydate) (now : pydate) :
  known_kind kind = true ->
  positive_number (PyFloat S754_nan) = false /\
  InvalidAmount = ValueError "Amount must be a positive number" /\
  Transaction_init (PyFloat S754_nan) category kind date now =
    Ok {| amount := S754_nan;
          category := category;
          type := PyStr.lower kind;
          date := match date with
                  | None => now
                  | Some d => d
                  end |}.
Proof.
  intros Hk. split; [reflexivity|]. split; [reflexivity|].
  rewrite (Transaction_init_checked _ (NFloat S754_nan)) by reflexivity.
  now rewrite Hk.
Qed.

Lemma nan_amount_accepted_witness :
  Transaction_init (PyFloat S754_nan) "Food" "Expense" None Sample.now =
  Ok {| amount := S754_nan; category := "Food"; type := "expense";
        date := Sample.now |}.
Proof.
  exact (proj2 (proj2 (nan_amount_accepted "Food" "Expense" None Sample.now
                         eq_refl))).
Defined.




(** C9. With a valid amount, every kind whose lower-case form is
    'expense' or 'income' is accepted, and the transaction stores the
    lower-case form of the kind. *)
Theorem kind_normalized (amount : pyval) (category kind : string)
    (date : option pydate) (now : pydate) :
  valid_amount amount = true ->
  PyStr.lower kind = "expense" \/ PyStr.lower kind = "income" ->
  exists t,
    Transaction_init amount category kind date now = Ok t /\
    type t = PyStr.lower kind.
Proof.
  unfold valid_amount. intros Ha Hk.
  destruct (as_number amount) as [n|] eqn:Hn; [|discriminate].
  apply andb_true_iff in Ha as [Hpos Hf].
  apply num_gt0_not_le0 in Hpos.
  rewrite (Transaction_init_checked _ n) by assumption.
  apply known_kind_iff in Hk. rewrite Hk.
  destruct (num_to_float n) as [a|e]; [|discriminate].
  simpl. eexists. split; reflexivity.
Qed.

Lemma kind_normalized_witness :
  exists t,
    Transaction_init (PyInt 1200) "Salary" "InCome" None Sample.now = Ok t /\
    type t = "income".
Proof.
  apply (kind_normalized (PyInt 1200) "Salary" "InCome" None Sample.now).
  - reflexivity.
  - right. reflexivity.
Defined.

(** ** Rounding: the float of a positive integer *)

Module Float64Facts.
Import Float64.

Lemma iter_pos_nat {A} (f : A -> A) (p : positive) (x : A) :
  iter_pos f p x = Nat.iter (Pos.to_nat p) f x.
Proof.
  revert x. induction p as [p IH | p IH |]; intros x; cbn [iter_pos].
  - rewrite !IH, Pos2Nat.inj_xI.
    replace (S (2 * Pos.to_nat p))
      with (Pos.to_nat p + S (Pos.to_nat p))%nat by lia.
    rewrite Nat.iter_add. now rewrite Nat.iter_succ_r.
  - rewrite !IH, Pos2Nat.inj_xO.
    replace (2 * Pos.to_nat p)%nat
      with (Pos.to_nat p + Pos.to_nat p)%nat by lia.
    now rewrite Nat.iter_add.
  - reflexivity.
Qed.

(** One shift to the right removes one binary digit. *)
Lemma shr_1_digits (mrs : shr_record) :
  0 <= shr_m mrs ->
  0 <= shr_m (shr_1 mrs) /\
  Zdigits2 (shr_m (shr_1 mrs)) = Z.max 0 (Zdigits2 (shr_m mrs) - 1).
Proof.
  destruct mrs as [m r s]. simpl.
  destruct m as [|[p|p|]|p]; cbn [shr_1 shr_m Zdigits2 digits2_pos];
    intros H; (split; [lia|]); try rewrite Pos2Z.inj_succ; lia.
Qed.

Lemma shr_iter_digits (n : nat) (mrs : shr_record) :
  0 <= shr_m mrs ->
  0 <= shr_m (Nat.iter n shr_1 mrs) /\
  Zdigits2 (shr_m (Nat.iter n shr_1 mrs)) =
  Z.max 0 (Zdigits2 (shr_m mrs) - Z.of_nat n).
Proof.
  intros H. induction n as [|n [IH1 IH2]].
  - simpl. split; [assumption|].
    destruct (shr_m mrs); simpl in *; lia.
  - rewrite Nat.iter_succ.
    destruct (shr_1_digits (Nat.iter n shr_1 mrs) IH1) as [H1 H2].
    split; [assumption|]. rewrite H2, IH2. lia.
Qed.

Lemma digits_pos (x : Z) : 0 <= x -> 0 < Zdigits2 x -> 0 < x.
Proof. destruct x; simpl; lia. Qed.

Lemma pos_digits (x : Z) : 0 < x -> 0 < Zdigits2 x.
Proof. destruct x; simpl; lia. Qed.

Lemma shr_m_of_loc (m : Z) (l : location) :
  shr_m (shr_record_of_loc m l) = m.
Proof. destruct l as [|[]]; reflexivity. Qed.

(** The shift that aligns a positive mantissa on the exponent of its
    format keeps it positive, above the smallest exponent. *)
Lemma shr_fexp_pos (m e : Z) (l : location) :
  0 < m -> -1074 < Zdigits2 m + e ->
  0 < shr_m (fst (shr_fexp prec emax m e l)) /\
  -1074 <= snd (shr_fexp prec emax m e l).
Proof.
  intros Hm Hd. unfold shr_fexp, shr.
  pose proof (pos_digits m Hm) as Hdm.
  destruct (fexp prec emax (Zdigits2 m + e) - e) as [|p|p] eqn:En;
    unfold fexp, emin, prec, emax in En; cbn [fst snd].
  - rewrite shr_m_of_loc. lia.
  - rewrite iter_pos_nat.
    destruct (shr_iter_digits (Pos.to_nat p) (shr_record_of_loc m l))
      as [H1 H2]; [rewrite shr_m_of_loc; lia|].
    rewrite shr_m_of_loc, positive_nat_Z in H2.
    split; [|lia].
    apply digits_pos; [assumption|]. rewrite H2. lia.
  - rewrite shr_m_of_loc. lia.
Qed.

Lemma round_nearest_even_pos (m : Z) (l : location) :
  0 < m -> 0 < round_nearest_even m l.
Proof.
  intros H. destruct l as [|[]]; simpl; try destruct (Z.even m); lia.
Qed.

(** Rounding a positive mantissa gives a finite float or an infinity,
    of the given sign. *)
Lemma binary_round_aux_pos (sx : bool) (m e : Z) (l : location) :
  0 < m -> -1074 < Zdigits2 m + e ->
  binary_round_aux prec emax sx m e l = S754_infinity sx \/
  exists m' e', binary_round_aux prec emax sx m e l = S754_finite sx m' e'.
Proof.
  intros Hm Hd. unfold binary_round_aux.
  destruct (shr_fexp_pos m e l Hm Hd) as [H1 H2].
  destruct (shr_fexp prec emax m e l) as [mrs' e'] eqn:E1.
  cbn [fst snd] in H1, H2.
  pose proof (round_nearest_even_pos _ (loc_of_shr_record mrs') H1) as Hr.
  pose proof (pos_digits _ Hr) as Hdr.
  destruct (shr_fexp_pos _ e' loc_Exact Hr ltac:(lia)) as [H3 _].
  destruct (shr_fexp prec emax _ e' loc_Exact) as [mrs'' e''].
  cbn [fst] in H3.
  destruct (shr_m mrs'') as [|q|q]; try lia.
  destruct (e'' <=? emax - prec); eauto.
Qed.

Lemma digits2_iter_xO (p k : positive) :
  Z.pos (digits2_pos (Pos.iter xO p k)) = Z.pos (digits2_pos p) + Z.pos k.
Proof.
  induction k as [|k IH] using Pos.peano_ind.
  - simpl. lia.
  - rewrite Pos.iter_succ. cbn [digits2_pos]. lia.
Qed.

Lemma binary_round_pos (sx : bool) (p : positive) (e : Z) :
  -1074 < Z.pos (digits2_pos p) + e ->
  binary_round prec emax sx p e = S754_infinity sx \/
  exists m' e', binary_round prec emax sx p e = S754_finite sx m' e'.
Proof.
  intros Hd. unfold binary_round, shl_align.
  destruct (fexp prec emax (Z.pos (digits2_pos p) + e) - e) as [|k|k] eqn:Ek.
  - apply binary_round_aux_pos; [lia | exact Hd].
  - apply binary_round_aux_pos; [lia | exact Hd].
  - apply binary_round_aux_pos; [lia|].
    cbn [Zdigits2]. rewrite digits2_iter_xO. lia.
Qed.

(** The float of a positive integer is positive. *)
Lemma of_Z_pos (z : Z) : 0 < z -> ltb zero (of_Z z) = true.
Proof.
  intros Hz. destruct z as [|p|p]; try lia.
  unfold of_Z, binary_normalize.
  destruct (binary_round_pos false p 0) as [-> | (m' & e' & ->)];
    [lia | reflexivity | reflexivity].
Qed.

End Float64Facts.

(** ** Rounding: sums and differences of whole numbers are exact *)

Module Exact.
Import Float64 Float64Facts.


Lemma shl_S p k : shl p (S k) = xO (shl p k).
Proof. reflexivity. Qed.

Lemma shl_add p j k : shl (shl p j) k = shl p (k + j).
Proof. unfold shl. now rewrite Nat.iter_add. Qed.

Lemma shl_value p k : Z.pos (shl p k) = Z.pos p * 2 ^ Z.of_nat k.
Proof.
  induction k as [|k IH]; [cbn; lia|].
  rewrite shl_S, Nat2Z.inj_succ, Z.pow_succ_r by lia. lia.
Qed.

Lemma shl_digits p k :
  Z.pos (digits2_pos (shl p k)) = Z.pos (digits2_pos p) + Z.of_nat k.
Proof.
  induction k as [|k IH]; [cbn; lia|].
  rewrite shl_S. cbn [digits2_pos]. lia.
Qed.

Lemma pos_iter_shl p d : Pos.iter xO p d = shl p (Pos.to_nat d).
Proof. unfold shl. apply Pos2Nat.inj_iter. Qed.

(** The number of binary digits of a positive number. *)
Lemma digits_bounds p :
  2 ^ (Z.pos (digits2_pos p) - 1) <= Z.pos p < 2 ^ Z.pos (digits2_pos p).
Proof.
  induction p as [p IH | p IH |]; cbn [digits2_pos]; [| |cbn; lia].
  - rewrite Pos2Z.inj_succ.
    replace (Z.succ (Z.pos (digits2_pos p)) - 1)
      with (Z.succ (Z.pos (digits2_pos p) - 1)) by lia.
    rewrite !Z.pow_succ_r by lia. lia.
  - rewrite Pos2Z.inj_succ.
    replace (Z.succ (Z.pos (digits2_pos p)) - 1)
      with (Z.succ (Z.pos (digits2_pos p) - 1)) by lia.
    rewrite !Z.pow_succ_r by lia. lia.
Qed.

Lemma digits_le_53 p : Z.pos p < 2 ^ 53 -> Z.pos (digits2_pos p) <= 53.
Proof.
  intros H. destruct (Z_le_gt_dec (Z.pos (digits2_pos p)) 53) as [|Hgt];
    [assumption|].
  pose proof (digits_bounds p) as [Hlo _].
  assert (2 ^ 53 <= 2 ^ (Z.pos (digits2_pos p) - 1))
    by (apply Z.pow_le_mono_r; lia).
  lia.
Qed.

(** Shifting right a number that ends in zeros loses nothing. *)
Lemma shr_shl (n k : nat) (p : positive) :
  (n <= k)%nat ->
  Nat.iter n shr_1
    {| shr_m := Z.pos (shl p k); shr_r := false; shr_s := false |}
  = {| shr_m := Z.pos (shl p (k - n)); shr_r := false; shr_s := false |}.
Proof.
  induction n as [|n IH]; intros Hn.
  - now rewrite Nat.sub_0_r.
  - rewrite Nat.iter_succ, IH by lia.
    replace (k - n)%nat with (S (k - S n)) by lia.
    reflexivity.
Qed.


Lemma digits_pos_ge1 p : 1 <= Z.pos (digits2_pos p).
Proof. lia. Qed.

(** Aligning on the exponent of the format a mantissa that ends in
    enough zeros gives the mantissa of 53 digits, exactly. *)
Lemma shr_fexp_exact (p : positive) (j : nat) :
  Z.pos p < 2 ^ 53 ->
  53 - Z.pos (digits2_pos p) <= Z.of_nat j ->
  shr_fexp prec emax (Z.pos (shl p j)) (- Z.of_nat j) loc_Exact
  = ({| shr_m := Z.pos (mant p); shr_r := false; shr_s := false |}, expo p).
Proof.
  intros Hp Hj. pose proof (digits_le_53 p Hp) as Hd.
  unfold shr_fexp, shr_record_of_loc. cbn [Zdigits2].
  rewrite shl_digits. unfold fexp, emin, prec, emax, mant, expo.
  set (d := Z.pos (digits2_pos p)) in *.
  replace (Z.max (d + Z.of_nat j + - Z.of_nat j - 53) (3 - 1024 - 53)
           - - Z.of_nat j) with (Z.of_nat j - (53 - d)) by lia.
  unfold shr.
  destruct (Z.of_nat j - (53 - d)) as [|q|q] eqn:En; [| |lia].
  - replace (Z.to_nat (53 - d)) with j by lia. f_equal. lia.
  - rewrite iter_pos_nat, shr_shl by lia.
    replace (j - Pos.to_nat q)%nat with (Z.to_nat (53 - d)) by lia.
    f_equal. lia.
Qed.

Lemma mant_normal (p : positive) :
  Z.pos p < 2 ^ 53 ->
  shr_fexp prec emax (Z.pos (mant p)) (expo p) loc_Exact
  = ({| shr_m := Z.pos (mant p); shr_r := false; shr_s := false |}, expo p).
Proof.
  intros Hp. pose proof (digits_le_53 p Hp) as Hd.
  pose proof (shr_fexp_exact p (Z.to_nat (53 - Z.pos (digits2_pos p))) Hp
                ltac:(lia)) as H.
  unfold mant at 1. unfold expo at 1.
  replace (Z.pos (digits2_pos p) - 53)
    with (- Z.of_nat (Z.to_nat (53 - Z.pos (digits2_pos p)))) by lia.
  exact H.
Qed.

Lemma round_aux_exact (s : bool) (p : positive) (j : nat) :
  Z.pos p < 2 ^ 53 ->
  53 - Z.pos (digits2_pos p) <= Z.of_nat j ->
  binary_round_aux prec emax s (Z.pos (shl p j)) (- Z.of_nat j) loc_Exact
  = S754_finite s (mant p) (expo p).
Proof.
  intros Hp Hj. pose proof (digits_le_53 p Hp) as Hd.
  unfold binary_round_aux.
  rewrite (shr_fexp_exact p j Hp Hj).
  cbn [shr_m loc_of_shr_record round_nearest_even].
  rewrite (mant_normal p Hp). cbn [shr_m].
  unfold expo, emax, prec.
  destruct (Z.leb_spec (Z.pos (digits2_pos p) - 53) (1024 - 53));
    [reflexivity | lia].
Qed.

(** Rounding the integer [p * 2^k] written with the exponent [-k]. *)
Lemma binary_round_exact (s : bool) (p : positive) (k : nat) :
  Z.pos p < 2 ^ 53 ->
  binary_round prec emax s (shl p k) (- Z.of_nat k)
  = S754_finite s (mant p) (expo p).
Proof.
  intros Hp. pose proof (digits_le_53 p Hp) as Hd.
  unfold binary_round, shl_align. rewrite shl_digits.
  unfold fexp, emin, prec, emax.
  set (d := Z.pos (digits2_pos p)) in *.
  replace (Z.max (d + Z.of_nat k + - Z.of_nat k - 53) (3 - 1024 - 53)
           - - Z.of_nat k) with (Z.of_nat k - (53 - d)) by lia.
  destruct (Z.of_nat k - (53 - d)) as [|q|q] eqn:En.
  - apply round_aux_exact; [assumption | fold d; lia].
  - apply round_aux_exact; [assumption | fold d; lia].
  - rewrite pos_iter_shl, shl_add.
    replace (Z.max (d + Z.of_nat k + - Z.of_nat k - 53) (3 - 1024 - 53))
      with (- Z.of_nat (Pos.to_nat q + k)) by lia.
    apply round_aux_exact; [assumption | fold d; lia].
Qed.


Lemma normalize_exact (z : Z) (k : nat) :
  Z.abs z < 2 ^ 53 ->
  binary_normalize prec emax (z * 2 ^ Z.of_nat k) (- Z.of_nat k) false
  = canon z.
Proof.
  intros Hz. destruct z as [|p|p]; [reflexivity| |].
  - rewrite <- shl_value. cbn [binary_normalize canon].
    apply binary_round_exact. lia.
  - replace (Z.neg p * 2 ^ Z.of_nat k) with (Z.neg (shl p k))
      by (pose proof (shl_value p k); lia).
    cbn [binary_normalize canon]. apply binary_round_exact. lia.
Qed.

Lemma of_Z_canon (z : Z) : Z.abs z < 2 ^ 53 -> of_Z z = canon z.
Proof.
  intros Hz. unfold of_Z.
  pose proof (normalize_exact z 0 Hz) as H. cbn in H.
  now rewrite Z.mul_1_r in H.
Qed.


Lemma shl_align_value (m : positive) (e ez : Z) :
  ez <= e ->
  Z.pos (fst (shl_align m e ez)) = Z.pos m * 2 ^ (e - ez).
Proof.
  intros H. unfold shl_align.
  destruct (ez - e) as [|q|q] eqn:E; cbn [fst]; try lia.
  - replace (e - ez) with 0 by lia. lia.
  - rewrite pos_iter_shl, shl_value. f_equal. f_equal. lia.
Qed.


Lemma canon_nonzero (z : Z) :
  z <> 0 ->
  canon z = S754_finite (sign_of z) (mant (pos_of z)) (expo (pos_of z)).
Proof. destruct z; [congruence | reflexivity | reflexivity]. Qed.

Lemma expo_range (p : positive) : Z.pos p < 2 ^ 53 -> -52 <= expo p <= 0.
Proof. intros H. pose proof (digits_le_53 p H). unfold expo. lia. Qed.

(** The mantissa of a nonzero integer, aligned on a smaller exponent. *)
Lemma aligned_value (z ez : Z) :
  z <> 0 -> Z.abs z < 2 ^ 53 -> ez <= expo (pos_of z) ->
  cond_Zopp (sign_of z)
            (Z.pos (fst (shl_align (mant (pos_of z)) (expo (pos_of z)) ez)))
  = z * 2 ^ (- ez).
Proof.
  intros Hz Hb He.
  assert (Hp : Z.pos (pos_of z) < 2 ^ 53)
    by (unfold pos_of; rewrite Z2Pos.id; lia).
  pose proof (expo_range _ Hp) as Hr.
  rewrite shl_align_value by assumption.
  unfold mant. rewrite shl_value.
  rewrite Z2Nat.id by (unfold expo in Hr; lia).
  rewrite <- Z.mul_assoc, <- Z.pow_add_r by (unfold expo in *; lia).
  replace (53 - Z.pos (digits2_pos (pos_of z)) + (expo (pos_of z) - ez))
    with (- ez) by (unfold expo; lia).
  unfold sign_of, pos_of, cond_Zopp.
  set (X := 2 ^ (- ez)).
  destruct z as [|p|p]; [congruence | reflexivity |].
  cbn [Z.ltb Z.compare Z.abs Z.to_pos].
  change (Z.neg p) with (- Z.pos p). now rewrite Z.mul_opp_l.
Qed.

Lemma add_exact (a b : Z) :
  Z.abs a < 2 ^ 53 -> Z.abs b < 2 ^ 53 -> Z.abs (a + b) < 2 ^ 53 ->
  add (of_Z a) (of_Z b) = of_Z (a + b).
Proof.
  intros Ha Hb Hab. rewrite !of_Z_canon by assumption.
  destruct (Z.eq_dec a 0) as [-> | Ha0].
  - cbn [canon Z.add]. destruct b; reflexivity.
  - destruct (Z.eq_dec b 0) as [-> | Hb0].
    + rewrite Z.add_0_r. destruct a; [congruence | reflexivity | reflexivity].
    + rewrite (canon_nonzero a Ha0), (canon_nonzero b Hb0).
      unfold add. cbn [SFadd].
      set (ez := Z.min (expo (pos_of a)) (expo (pos_of b))).
      assert (Hpa : Z.pos (pos_of a) < 2 ^ 53)
        by (unfold pos_of; rewrite Z2Pos.id; lia).
      assert (Hpb : Z.pos (pos_of b) < 2 ^ 53)
        by (unfold pos_of; rewrite Z2Pos.id; lia).
      pose proof (expo_range _ Hpa). pose proof (expo_range _ Hpb).
      rewrite !aligned_value by (try assumption; unfold ez; lia).
      rewrite <- Z.mul_add_distr_r.
      replace (- ez) with (Z.of_nat (Z.to_nat (- ez))) by (unfold ez; lia).
      replace ez with (- Z.of_nat (Z.to_nat (- ez))) at 2 by (unfold ez; lia).
      now apply normalize_exact.
Qed.

Lemma sub_exact (a b : Z) :
  Z.abs a < 2 ^ 53 -> Z.abs b < 2 ^ 53 -> Z.abs (a - b) < 2 ^ 53 ->
  sub (of_Z a) (of_Z b) = of_Z (a - b).
Proof.
  intros Ha Hb Hab. rewrite !of_Z_canon by assumption.
  destruct (Z.eq_dec b 0) as [-> | Hb0].
  - rewrite Z.sub_0_r. destruct a; reflexivity.
  - destruct (Z.eq_dec a 0) as [-> | Ha0].
    + cbn [canon Z.sub]. destruct b; [congruence | reflexivity | reflexivity].
    + rewrite (canon_nonzero a Ha0), (canon_nonzero b Hb0).
      unfold sub. cbn [SFsub].
      set (ez := Z.min (expo (pos_of a)) (expo (pos_of b))).
      assert (Hpa : Z.pos (pos_of a) < 2 ^ 53)
        by (unfold pos_of; rewrite Z2Pos.id; lia).
      assert (Hpb : Z.pos (pos_of b) < 2 ^ 53)
        by (unfold pos_of; rewrite Z2Pos.id; lia).
      pose proof (expo_range _ Hpa). pose proof (expo_range _ Hpb).
      rewrite !aligned_value by (try assumption; unfold ez; lia).
      rewrite <- Z.mul_sub_distr_r.
      replace (- ez) with (Z.of_nat (Z.to_nat (- ez))) by (unfold ez; lia).
      replace ez with (- Z.of_nat (Z.to_nat (- ez))) at 2 by (unfold ez; lia).
      now apply normalize_exact.
Qed.

End Exact.

(** ** Whole numbers: their integer part and their sums *)

Module Whole.
Import Float64 Float64Facts Exact.

Lemma mant_value (p : positive) :
  Z.pos p < 2 ^ 53 -> Z.pos (mant p) = Z.pos p * 2 ^ (- expo p).
Proof.
  intros Hp. unfold mant. rewrite shl_value.
  pose proof (expo_range p Hp) as He. unfold expo in *.
  rewrite Z2Nat.id by lia. f_equal. f_equal. lia.
Qed.

Lemma trunc_canon (z : Z) : Z.abs z < 2 ^ 53 -> trunc (canon z) = z.
Proof.
  intros Hz.
  assert (H : forall p, Z.pos p < 2 ^ 53 ->
            (if 0 <=? expo p then Z.pos (mant p) * 2 ^ expo p
             else Z.pos (mant p) / 2 ^ (- expo p)) = Z.pos p).
  { intros p Hp. pose proof (expo_range p Hp) as He.
    rewrite (mant_value p Hp).
    destruct (0 <=? expo p) eqn:E.
    - apply Z.leb_le in E. replace (expo p) with 0 by lia.
      cbn [Z.opp]. change (2 ^ 0) with 1. lia.
    - apply Z.div_mul. apply Z.pow_nonzero; lia. }
  destruct z as [|p|p]; cbn [canon trunc]; [reflexivity| |].
  - apply H. exact Hz.
  - rewrite H by exact Hz. reflexivity.
Qed.

Lemma is_integer_canon (z : Z) :
  Z.abs z < 2 ^ 53 -> is_integer (canon z) = true.
Proof.
  intros Hz.
  assert (H : forall p, Z.pos p < 2 ^ 53 ->
            (0 <=? expo p) || (Z.pos (mant p) mod 2 ^ (- expo p) =? 0) = true).
  { intros p Hp. rewrite (mant_value p Hp).
    rewrite Z.mod_mul
      by (apply Z.pow_nonzero; pose proof (expo_range p Hp); lia).
    apply orb_true_r. }
  destruct z as [|p|p]; cbn [canon is_integer]; [reflexivity| |]; now apply H.
Qed.

Lemma trunc_of_Z (z : Z) : Z.abs z < 2 ^ 53 -> trunc (of_Z z) = z.
Proof. intros Hz. rewrite of_Z_canon by exact Hz. now apply trunc_canon. Qed.

(** A float made from an integer below 2^53 equals that integer. *)
Lemma py_eq_of_Z (z : Z) :
  Z.abs z < 2 ^ 53 -> py_eq (NFloat (of_Z z)) (NInt z) = true.
Proof.
  intros Hz. cbn [py_eq]. rewrite trunc_of_Z by exact Hz.
  rewrite of_Z_canon by exact Hz. rewrite is_integer_canon by exact Hz.
  now rewrite Z.eqb_refl.
Qed.

(** A whole number that is not [<= 0] is the float of a positive
    integer. *)
Lemma whole_positive (x : float) :
  whole x -> leb x zero = false -> 0 < trunc x.
Proof.
  unfold whole. intros Hw Hle.
  destruct x as [s | s | | s m e]; try discriminate.
  destruct s; [discriminate Hle|].
  assert (H0 : 0 <= trunc (S754_finite false m e)).
  { cbn [trunc]. destruct (0 <=? e) eqn:E.
    - apply Z.mul_nonneg_nonneg; [lia|]. apply Z.pow_nonneg. lia.
    - apply Z.leb_gt in E. apply Z.div_pos; [lia|].
      apply Z.pow_pos_nonneg; lia. }
  destruct (Z.eq_dec (trunc (S754_finite false m e)) 0) as [E|E]; [|lia].
  rewrite E in Hw. discriminate Hw.
Qed.

(** The sum of integers. *)
Lemma fold_add_whole (zs : list Z) (a : Z) :
  0 <= a -> Forall (fun z => 0 < z) zs ->
  a + fold_right Z.add 0 zs < 2 ^ 53 ->
  fold_left add (map of_Z zs) (of_Z a) = of_Z (a + fold_right Z.add 0 zs).
Proof.
  revert a. induction zs as [|z zs IH]; intros a Ha Hz Hs.
  - cbn. now rewrite Z.add_0_r.
  - inversion Hz as [|? ? Hz1 Hz2]; subst.
    cbn [map fold_left fold_right] in *.
    assert (Hnn : 0 <= fold_right Z.add 0 zs).
    { clear - Hz2. induction Hz2; cbn; lia. }
    rewrite add_exact by lia.
    rewrite IH by (try assumption; lia). f_equal. lia.
Qed.

Lemma compensated_whole (zs : list Z) (a : Z) :
  0 <= a -> Forall (fun z => 0 < z) zs ->
  a + fold_right Z.add 0 zs < 2 ^ 53 ->
  compensated (map of_Z zs) (of_Z a) zero = of_Z (a + fold_right Z.add 0 zs).
Proof.
  revert a. induction zs as [|z zs IH]; intros a Ha Hz Hs.
  - cbn. now rewrite Z.add_0_r.
  - inversion Hz as [|? ? Hz1 Hz2]; subst.
    cbn [map compensated fold_right] in *.
    assert (Hnn : 0 <= fold_right Z.add 0 zs).
    { clear - Hz2. induction Hz2; cbn; lia. }
    rewrite (add_exact a z) by lia.
    assert (Hc : (if leb (abs (of_Z z)) (abs (of_Z a))
                  then add zero (add (sub (of_Z a) (of_Z (a + z))) (of_Z z))
                  else add zero (add (sub (of_Z z) (of_Z (a + z))) (of_Z a)))
                 = zero).
    { destruct (leb _ _).
      - rewrite sub_exact by lia. rewrite add_exact by lia.
        replace (a - (a + z) + z) with 0 by lia. reflexivity.
      - rewrite sub_exact by lia. rewrite add_exact by lia.
        replace (z - (a + z) + a) with 0 by lia. reflexivity. }
    rewrite Hc. rewrite IH by (try assumption; lia). f_equal. lia.
Qed.

Lemma py_sum_whole (alg : sum_algorithm) (zs : list Z) :
  Forall (fun z => 0 < z) zs ->
  fold_right Z.add 0 zs < 2 ^ 53 ->
  py_sum alg (map of_Z zs) =
  match zs with
  | [] => NInt 0
  | _ => NFloat (of_Z (fold_right Z.add 0 zs))
  end.
Proof.
  intros Hz Hs. destruct zs as [|z zs]; [reflexivity|].
  inversion Hz as [|? ? Hz1 Hz2]; subst.
  cbn [map py_sum fold_right] in *.
  assert (Hnn : 0 <= fold_right Z.add 0 zs).
  { clear - Hz2. induction Hz2; cbn; lia. }
  unfold add_float. cbn [num_float].
  rewrite (add_exact 0 z) by (cbn; lia). cbn [Z.add].
  f_equal. destruct alg.
  - apply fold_add_whole; try assumption; lia.
  - apply compensated_whole; try assumption; lia.
Qed.

End Whole.

(** ** Dates: reading back what was written *)

Module PyTimeFacts.
Import PyTime.

Lemma digit_code (n : Z) :
  Z.of_N (N_of_ascii (digit n)) = 48 + n mod 10.
Proof.
  unfold digit.
  pose proof (Z.mod_pos_bound n 10 ltac:(lia)) as Hb.
  rewrite N_ascii_embedding by (apply N2Z.inj_lt; rewrite Z2N.id; lia).
  apply Z2N.id. lia.
Qed.

Lemma digit_val_digit (n : Z) : digit_val (digit n) = Some (n mod 10).
Proof.
  unfold digit_val. rewrite digit_code.
  pose proof (Z.mod_pos_bound n 10 ltac:(lia)) as Hb.
  destruct (Z.leb_spec 48 (48 + n mod 10)); [|lia].
  destruct (Z.leb_spec (48 + n mod 10) 57); [|lia].
  cbn [andb]. f_equal. lia.
Qed.

Lemma is_space_digit (n : Z) : is_space (digit n) = false.
Proof.
  unfold is_space. rewrite digit_code.
  pose proof (Z.mod_pos_bound n 10 ltac:(lia)) as Hb.
  repeat match goal with
         | |- context [?a <=? ?b] => destruct (Z.leb_spec a b); try lia
         | |- context [?a =? ?b] => destruct (Z.eqb_spec a b); try lia
         end; reflexivity.
Qed.

(** A property of the integers of a range, by inspection of each. *)
Lemma range_check (f : Z -> bool) (lo : Z) (n : nat) :
  forallb f (map (fun i => lo + Z.of_nat i) (seq 0 n)) = true ->
  forall z, lo <= z < lo + Z.of_nat n -> f z = true.
Proof.
  intros H z Hz. rewrite forallb_forall in H. apply H.
  apply in_map_iff. exists (Z.to_nat (z - lo)). split; [lia|].
  apply in_seq. lia.
Qed.

Lemma first_here {A} (x : A * list ascii) (tl : matches A) :
  first_match (x :: tl) x.
Proof. now exists tl. Qed.

Lemma first_alt {A} (c : bool) (x : A * list ascii) (m : matches A) :
  (c = false -> first_match m x) ->
  first_match ((if c then [x] else []) ++ m)%list x.
Proof.
  destruct c; intros H; [apply first_here|]. now apply H.
Qed.

Lemma first_app {A} (m1 m2 : matches A) (x : A * list ascii) :
  first_match m1 x -> first_match (m1 ++ m2)%list x.
Proof. intros [tl ->]. now exists (tl ++ m2)%list. Qed.

Lemma first_and_then {A B} (m : matches A)
    (k : A -> list ascii -> matches B) a r x :
  first_match m (a, r) -> first_match (k a r) x ->
  first_match (and_then m k) x.
Proof.
  intros [tl ->] H. unfold and_then. cbn [flat_map fst snd].
  now apply first_app.
Qed.

Lemma two_pad (p : Z -> Z -> bool) (n : Z) (rest : list ascii) :
  0 <= n < 100 ->
  two p (digit (n / 10) :: digit n :: rest) =
  if p (n / 10) (n mod 10) then [(n, rest)] else [].
Proof.
  intros Hn. unfold two. rewrite !digit_val_digit.
  replace ((n / 10) mod 10) with (n / 10)
    by (Z.to_euclidean_division_equations; lia).
  replace (10 * (n / 10) + n mod 10) with n
    by (Z.to_euclidean_division_equations; lia).
  reflexivity.
Qed.

Lemma field_Y_pad (y : Z) (rest : list ascii) :
  0 <= y < 10000 ->
  first_match
    (field_Y (digit (y / 1000) :: digit (y / 100) :: digit (y / 10)
              :: digit y :: rest))
    (y, rest).
Proof.
  intros Hy. unfold field_Y. rewrite !digit_val_digit.
  replace (1000 * ((y / 1000) mod 10) + 100 * ((y / 100) mod 10) +
           10 * ((y / 10) mod 10) + y mod 10) with y
    by (Z.to_euclidean_division_equations; lia).
  apply first_here.
Qed.

Lemma field_m_pad (m : Z) (rest : list ascii) :
  1 <= m <= 12 ->
  first_match (field_m (digit (m / 10) :: digit m :: rest)) (m, rest).
Proof.
  intros Hm. unfold field_m. rewrite !two_pad by lia.
  pose proof (range_check
    (fun m => ((m / 10 =? 1) && (m mod 10 <=? 2)) ||
              ((m / 10 =? 0) && (1 <=? m mod 10))) 1 12 eq_refl m
    ltac:(lia)) as H.
  cbv beta in H.
  apply first_alt; intros H1. rewrite H1 in H.
  apply first_alt; intros H2. rewrite H2 in H. discriminate H.
Qed.

Lemma field_d_pad (d : Z) (rest : list ascii) :
  1 <= d <= 31 ->
  first_match (field_d (digit (d / 10) :: digit d :: rest)) (d, rest).
Proof.
  intros Hd. unfold field_d. rewrite !two_pad by lia.
  pose proof (range_check
    (fun d => ((d / 10 =? 3) && (d mod 10 <=? 1)) ||
              ((1 <=? d / 10) && (d / 10 <=? 2)) ||
              ((d / 10 =? 0) && (1 <=? d mod 10))) 1 31 eq_refl d
    ltac:(lia)) as H.
  cbv beta in H.
  apply first_alt; intros H1. rewrite H1 in H.
  apply first_alt; intros H2. rewrite H2 in H.
  apply first_alt; intros H3. rewrite H3 in H. discriminate H.
Qed.

Lemma field_H_pad (h : Z) (rest : list ascii) :
  0 <= h < 24 ->
  first_match (field_H (digit (h / 10) :: digit h :: rest)) (h, rest).
Proof.
  intros Hh. unfold field_H. rewrite !two_pad by lia.
  pose proof (range_check
    (fun h => ((h / 10 =? 2) && (h mod 10 <=? 3)) || (h / 10 <=? 1))
    0 24 eq_refl h ltac:(lia)) as H.
  cbv beta in H.
  apply first_alt; intros H1. rewrite H1 in H.
  apply first_alt; intros H2. rewrite H2 in H. discriminate H.
Qed.

Lemma field_M_pad (n : Z) (rest : list ascii) :
  0 <= n < 60 ->
  first_match (field_M (digit (n / 10) :: digit n :: rest)) (n, rest).
Proof.
  intros Hn. unfold field_M. rewrite !two_pad by lia.
  pose proof (range_check (fun n => n / 10 <=? 5) 0 60 eq_refl n
    ltac:(lia)) as H.
  cbv beta in H.
  apply first_alt; intros H1. rewrite H1 in H. discriminate H.
Qed.

Lemma field_S_pad (n : Z) (rest : list ascii) :
  0 <= n < 60 ->
  first_match (field_S (digit (n / 10) :: digit n :: rest)) (n, rest).
Proof.
  intros Hn. unfold field_S. rewrite !two_pad by lia.
  pose proof (range_check (fun n => n / 10 <=? 5) 0 60 eq_refl n
    ltac:(lia)) as H.
  cbv beta in H.
  apply first_alt; intros _.
  apply first_alt; intros H1. rewrite H1 in H. discriminate H.
Qed.

Lemma lit_here (c : ascii) (rest : list ascii) :
  first_match (lit c (c :: rest)) (tt, rest).
Proof. unfold lit. rewrite Ascii.eqb_refl. apply first_here. Qed.

Lemma space_before_digit (n : Z) (rest : list ascii) :
  first_match (spaces (" "%char :: digit n :: rest)) (tt, digit n :: rest).
Proof.
  cbn [spaces]. change (is_space " ") with true. cbv iota.
  rewrite is_space_digit. apply first_here.
Qed.

Lemma days_in_month_le (y m : Z) : days_in_month y m <= 31.
Proof.
  unfold days_in_month.
  repeat match goal with
         | |- context [match ?x with _ => _ end] => destruct x
         end; lia.
Qed.

Lemma date_ok_bounds (y m d : Z) :
  date_ok y m d = true ->
  1 <= y < 10000 /\ 1 <= m <= 12 /\ 1 <= d <= 31 /\ d <= days_in_month y m.
Proof.
  unfold date_ok. intros H.
  repeat (apply andb_true_iff in H as [H ?]).
  pose proof (days_in_month_le y m). lia.
Qed.

Lemma time_ok_bounds (hh mm ss us : Z) :
  time_ok hh mm ss us = true ->
  0 <= hh < 24 /\ 0 <= mm < 60 /\ 0 <= ss < 60.
Proof.
  unfold time_ok. intros H.
  repeat (apply andb_true_iff in H as [H ?]). lia.
Qed.

Lemma time_ok_seconds (hh mm ss us : Z) :
  time_ok hh mm ss us = true -> time_ok hh mm ss 0 = true.
Proof.
  unfold time_ok. intros H.
  repeat (apply andb_true_iff in H as [H ?]).
  repeat (apply andb_true_iff; split); auto.
Qed.

(** The year as four digits. *)
Lemma year_in_full (padded : bool) (y : Z) (rest : string) :
  padded = true \/ 1000 <= y ->
  (if padded then pad4 y else plain_year y) rest = pad4 y rest.
Proof.
  intros [-> | Hy]; [reflexivity|]. destruct padded; [reflexivity|].
  unfold plain_year.
  destruct (Z.ltb_spec y 10); [lia|].
  destruct (Z.ltb_spec y 100); [lia|].
  destruct (Z.ltb_spec y 1000); [lia|]. reflexivity.
Qed.

Lemma strptime_fields (padded : bool) (y m d hh mm ss : Z) :
  date_ok y m d = true -> time_ok hh mm ss 0 = true ->
  padded = true \/ 1000 <= y ->
  strptime (format_fields padded y m d hh mm ss)
  = Ok (PyDateTime y m d hh mm ss 0).
Proof.
  intros Hd Ht Hpad.
  destruct (date_ok_bounds _ _ _ Hd) as (Hy & Hm & Hdd & Hdm).
  destruct (time_ok_bounds _ _ _ _ Ht) as (Hh & Hmm & Hs).
  unfold strptime, format_fields. rewrite (year_in_full _ _ _ Hpad).
  unfold pad4, pad2. cbn [list_ascii_of_string].
  match goal with
  | |- context [pattern ?s] =>
      assert (Hp : first_match (pattern s) ((y, m, d, hh, mm, ss), []))
  end.
  { unfold pattern.
    eapply first_and_then; [apply field_Y_pad; lia|].
    eapply first_and_then; [apply lit_here|].
    eapply first_and_then; [apply field_m_pad; lia|].
    eapply first_and_then; [apply lit_here|].
    eapply first_and_then; [apply field_d_pad; lia|].
    eapply first_and_then; [apply space_before_digit|].
    eapply first_and_then; [apply field_H_pad; lia|].
    eapply first_and_then; [apply lit_here|].
    eapply first_and_then; [apply field_M_pad; lia|].
    eapply first_and_then; [apply lit_here|].
    eapply first_and_then; [apply field_S_pad; lia|].
    apply first_here. }
  destruct Hp as [tl ->].
  destruct (Z.eqb_spec y 0); [lia|].
  destruct (Z.ltb_spec (days_in_month y m) d); [lia|].
  destruct (Z.leb_spec 60 ss); [lia|]. reflexivity.
Qed.

(** Reading back the text of a date gives the date at whole seconds. *)
Lemma strptime_strftime (padded : bool) (d : pydate) :
  pydate_ok d = true ->
  padded = true \/ 1000 <= date_year d ->
  strptime (strftime padded d) = Ok (at_seconds d).
Proof.
  destruct d as [y m d | y m d hh mm ss us]; simpl; intros H Hp.
  - now apply strptime_fields.
  - apply andb_true_iff in H as [Hd Ht].
    apply strptime_fields; [assumption| |assumption].
    now apply time_ok_seconds in Ht.
Qed.

End PyTimeFacts.

(** ** What the constructor returns *)

Lemma num_to_float_not_le0 (n : num) (a : float) :
  num_le0 n = false -> num_to_float n = Ok a ->
  Float64.leb a Float64.zero = false.
Proof.
  destruct n as [z | f]; simpl.
  - intros Hz. apply Z.leb_gt in Hz.
    destruct (Float64.is_infinite (Float64.of_Z z)); [discriminate|].
    intros [= <-].
    apply float_gt0_not_le0, Float64Facts.of_Z_pos, Hz.
  - now intros H [= <-].
Qed.

Lemma num_to_float_gt0 (n : num) (a : float) :
  num_gt0 n = true -> num_to_float n = Ok a ->
  Float64.ltb Float64.zero a = true.
Proof.
  destruct n as [z | f]; simpl.
  - intros Hz. apply Z.ltb_lt in Hz.
    destruct (Float64.is_infinite (Float64.of_Z z)); [discriminate|].
    intros [= <-]. apply Float64Facts.of_Z_pos, Hz.
  - now intros H [= <-].
Qed.

(** The fields of a transaction that the constructor returned. *)
Lemma Transaction_init_Ok a c k d now t :
  Transaction_init a c k d now = Ok t ->
  exists n,
    as_number a = Some n /\ num_le0 n = false /\ known_kind k = true /\
    num_to_float n = Ok (amount t) /\
    category t = c /\ type t = PyStr.lower k /\
    date t = match d with
             | None => now
             | Some d' => d'
             end.
Proof.
  unfold Transaction_init.
  destruct (as_number a) as [n|]; [|discriminate].
  destruct (num_le0 n) eqn:Hle; [discriminate|].
  rewrite str_in_valid_types.
  destruct (known_kind k) eqn:Hk; [|discriminate]. cbn [negb].
  destruct (num_to_float n) as [f|e] eqn:Hf; [|discriminate].
  cbn [bind]. intros [= <-]. exists n. cbn. auto 10.
Qed.

(** The invariant of the data model: the kind is one of the two, and
    the amount is not [<= 0]. *)
Lemma Transaction_init_wf a c k d now t :
  Transaction_init a c k d now = Ok t -> wf_transaction t = true.
Proof.
  intros H.
  destruct (Transaction_init_Ok _ _ _ _ _ _ H)
    as (n & _ & Hle & Hk & Hf & _ & Hty & _).
  unfold wf_transaction.
  rewrite Hty, str_in_valid_types, Hk.
  now rewrite (num_to_float_not_le0 n _ Hle Hf).
Qed.

Lemma wf_type (t : Transaction) :
  wf_transaction t = true -> type t = "expense" \/ type t = "income".
Proof.
  unfold wf_transaction, str_in, valid_types. cbn [existsb].
  intros H. apply andb_true_iff in H as [H _].
  rewrite orb_false_r in H.
  apply orb_true_iff in H as [H | H]; apply String.eqb_eq in H; auto.
Qed.

Lemma wf_income_or_expense (t : Transaction) :
  wf_transaction t = true -> is_income t = negb (is_expense t).
Proof.
  intros H. unfold is_income, is_expense.
  destruct (wf_type t H) as [-> | ->]; reflexivity.
Qed.

(** ** Loading *)

(** The loop appends to the list it is given and looks at nothing of it. *)
Lemma load_rows_acc (rows : table) (now : pydate) (acc : list Transaction) :
  load_rows rows now acc =
  ((acc ++ fst (load_rows rows now []))%list, snd (load_rows rows now [])).
Proof.
  revert acc. induction rows as [|r rows IH]; intros acc; cbn [load_rows].
  - now rewrite app_nil_r.
  - destruct (PyTime.strptime (row_date r)) as [d|e];
      [|now rewrite app_nil_r].
    destruct (Transaction_init _ _ _ _ _) as [t|e];
      [|now rewrite app_nil_r].
    rewrite (IH (acc ++ [t])%list), (IH ([] ++ [t])%list).
    cbn [fst snd app]. now rewrite <- app_assoc.
Qed.

Lemma load_rows_app (r1 r2 : table) (now : pydate)
    (acc acc1 : list Transaction) :
  load_rows r1 now acc = (acc1, Ok tt) ->
  load_rows (r1 ++ r2)%list now acc = load_rows r2 now acc1.
Proof.
  revert acc. induction r1 as [|r r1 IH]; intros acc; cbn [load_rows app].
  - now intros [= ->].
  - destruct (PyTime.strptime (row_date r)) as [d|e]; [|discriminate].
    destruct (Transaction_init _ _ _ _ _) as [t|e]; [|discriminate].
    apply IH.
Qed.

Lemma load_rows_wf (rows : table) (now : pydate) (acc : list Transaction) :
  Forall (fun t => wf_transaction t = true) acc ->
  Forall (fun t => wf_transaction t = true) (fst (load_rows rows now acc)).
Proof.
  revert acc. induction rows as [|r rows IH]; intros acc Hacc;
    cbn [load_rows]; [assumption|].
  destruct (PyTime.strptime (row_date r)) as [d|e]; [|assumption].
  destruct (Transaction_init _ _ _ _ _) as [t|e] eqn:Ht; [|assumption].
  apply IH, Forall_app. split; [assumption|].
  constructor; [|constructor]. eapply Transaction_init_wf, Ht.
Qed.

Lemma load_transactions_fst (s : Ledger) (now : pydate) :
  fst (load_transactions s now) =
  with_transactions s (fst (load_rows (finance_db s) now (transactions s))).
Proof.
  unfold load_transactions.
  now destruct (load_rows (finance_db s) now (transactions s)).
Qed.

(** A load either goes through a first part of the table and on to the
    rest, or stops in the first part. *)
Lemma load_rows_split (r1 r2 : table) (now : pydate)
    (acc : list Transaction) :
  load_rows (r1 ++ r2)%list now acc =
  match load_rows r1 now acc with
  | (txs, Ok tt) => load_rows r2 now txs
  | (txs, Raise e) => (txs, Raise e)
  end.
Proof.
  revert acc. induction r1 as [|r r1 IH]; intros acc; cbn [load_rows app].
  - reflexivity.
  - destruct (PyTime.strptime (row_date r)) as [d|e]; [|reflexivity].
    destruct (Transaction_init _ _ _ _ _) as [t|e]; [|reflexivity].
    apply IH.
Qed.

(** ** The table: the number of a new row *)

Module SqliteFacts.
Import Sqlite.

Lemma largest_bound (l : list Z) (m : Z) :
  largest l = Some m -> Forall (fun i => i <= m) l.
Proof.
  revert m. induction l as [|i l IH]; intros m; cbn [largest];
    [constructor|].
  destruct (largest l) as [m'|] eqn:E.
  - intros [= <-]. constructor; [lia|].
    eapply Forall_impl; [|apply (IH m' eq_refl)].
    cbv beta. intros. lia.
  - intros [= <-]. destruct l; [|cbn in E; destruct (largest l); discriminate].
    constructor; [lia|constructor].
Qed.

Lemma largest_snoc (l : list Z) (i : Z) :
  Forall (fun j => j <= i) l -> largest (l ++ [i]) = Some i.
Proof.
  induction 1 as [|j l Hj _ IH]; [reflexivity|].
  cbn [app largest]. rewrite IH. f_equal. lia.
Qed.

(** The rows of a table are below the number after the largest. *)
Lemma rowids_bound (t : table) :
  t = [] \/ Forall (fun r => id r <= top_rowid t) t.
Proof.
  unfold top_rowid, rowids.
  destruct (largest (map id t)) as [m|] eqn:E.
  - right. apply largest_bound in E. now rewrite Forall_map in E.
  - left. destruct t as [|r t]; [reflexivity|].
    cbn in E. destruct (largest (map id t)); discriminate.
Qed.

Lemma rowids_below (t : table) (i : Z) :
  top_rowid t < i -> 0 < i -> Forall (fun r => id r < i) t.
Proof.
  intros H H0. destruct (rowids_bound t) as [-> | Hb]; [constructor|].
  eapply Forall_impl; [|exact Hb]. cbv beta. intros. lia.
Qed.

Lemma place_last (r : Row) (t : table) :
  Forall (fun r' => id r' < id r) t -> place r t = (t ++ [r])%list.
Proof.
  induction 1 as [|r' t Hr _ IH]; [reflexivity|].
  cbn [place app]. destruct (Z.ltb_spec (id r) (id r')); [lia|].
  now rewrite IH.
Qed.

Lemma new_rowid_room (rr : list Z -> option Z) (t : table) :
  has_room t = true -> new_rowid rr t = Ok (top_rowid t + 1).
Proof.
  unfold has_room, new_rowid, top_rowid.
  destruct (largest (rowids t)) as [m|]; [|reflexivity].
  now intros ->.
Qed.

(** The new number is above every number of the table. *)
Lemma top_rowid_fresh (t : table) :
  Forall (fun r => id r < top_rowid t + 1) t.
Proof.
  destruct (rowids_bound t) as [-> | Hb]; [constructor|].
  eapply Forall_impl; [|exact Hb]. cbv beta. intros. lia.
Qed.

(** In a table with room the new row comes last, with the number after
    the largest. *)
Lemma insert_room (rr : list Z -> option Z) (t : table) (a : float)
    (c ty d : string) :
  has_room t = true ->
  insert rr t a c ty d =
  Ok (t ++ [{| id := top_rowid t + 1; row_amount := bind_real a;
               row_category := c; row_type := ty; row_date := d |}])%list.
Proof.
  intros H. unfold insert. rewrite (new_rowid_room _ _ H). cbn [bind].
  rewrite place_last; [reflexivity|]. apply top_rowid_fresh.
Qed.

Lemma top_rowid_snoc (t : table) (r : Row) :
  id r = top_rowid t + 1 -> top_rowid (t ++ [r])%list = top_rowid t + 1.
Proof.
  intros Hr. unfold top_rowid at 1, rowids.
  rewrite map_app. cbn [map]. rewrite largest_snoc; [exact Hr|].
  rewrite Forall_map. eapply Forall_impl; [|apply top_rowid_fresh].
  cbv beta. intros. lia.
Qed.

(** The only failure of an [INSERT] is a table without a free number. *)
Lemma insert_raises (rr : list Z -> option Z) (t : table) (a : float)
    (c ty d : string) (e : exn) :
  insert rr t a c ty d = Raise e ->
  e = database_full /\ has_room t = false.
Proof.
  unfold insert, new_rowid, has_room, top_rowid.
  destruct (largest (rowids t)) as [m|]; [|discriminate].
  destruct (m <? max_rowid); [discriminate|].
  destruct (rr (rowids t)) as [i|].
  - destruct (_ && _); [discriminate|]. cbn [bind]. now intros [= <-].
  - cbn [bind]. now intros [= <-].
Qed.

End SqliteFacts.

(** ** Additions *)

(** The three ways in which [add_transaction] ends. *)
Lemma add_transaction_accepted os s a c k d now t db :
  Transaction_init a c k d now = Ok t ->
  insert_transaction os (finance_db s) t = Ok db ->
  add_transaction os s a c k d now =
    ({| transactions := (transactions s ++ [t])%list;
        finance_db := db;
        errors_shown := errors_shown s |}, Ok true).
Proof.
  intros Ht Hdb. unfold add_transaction, try_add. rewrite Ht.
  cbn [with_transactions finance_db transactions errors_shown].
  now rewrite Hdb.
Qed.


Lemma add_transaction_full os s a c k d now t e :
  Transaction_init a c k d now = Ok t ->
  insert_transaction os (finance_db s) t = Raise e ->
  add_transaction os s a c k d now =
    (with_transactions s (transactions s ++ [t])%list, Raise database_full).
Proof.
  intros Ht He. unfold add_transaction, try_add. rewrite Ht.
  cbn [with_transactions finance_db transactions errors_shown].
  rewrite He. unfold insert_transaction in He.
  apply SqliteFacts.insert_raises in He as [-> _]. reflexivity.
Qed.

(** With room in the table, an accepted addition appends the
    transaction and its row. *)
Lemma add_transaction_room os s a c k d now t :
  Transaction_init a c k d now = Ok t ->
  has_room (finance_db s) = true ->
  add_transaction os s a c k d now =
    ({| transactions := (transactions s ++ [t])%list;
        finance_db :=
          (finance_db s ++
           [{| id := top_rowid (finance_db s) + 1;
               row_amount := bind_real (amount t);
               row_category := category t;
               row_type := type t;
               row_date := PyTime.strftime (year_padded os) (date t) |}])%list;
        errors_shown := errors_shown s |}, Ok true).
Proof.
  intros Ht Hr. apply add_transaction_accepted; [exact Ht|].
  unfold insert_transaction. now apply SqliteFacts.insert_room.
Qed.

(** What an addition does to the list: nothing, or one transaction of
    the constructor more. *)
Lemma add_transaction_list os s a c k d now :
  transactions (fst (add_transaction os s a c k d now)) = transactions s \/
  exists t,
    Transaction_init a c k d now = Ok t /\
    transactions (fst (add_transaction os s a c k d now)) =
      (transactions s ++ [t])%list.
Proof.
  destruct (Transaction_init a c k d now) as [t|e] eqn:Ht.
  - right. exists t. split; [reflexivity|].
    destruct (insert_transaction os (finance_db s) t) as [db|e] eqn:Hdb.
    + now rewrite (add_transaction_accepted _ _ _ _ _ _ _ _ _ Ht Hdb).
    + now rewrite (add_transaction_full _ _ _ _ _ _ _ _ _ Ht Hdb).
  - left. unfold add_transaction, try_add. rewrite Ht.
    now destruct e.
Qed.

(** ** Reachable ledgers *)

Lemma add_transaction_wf os s a c k d now :
  Forall (fun t => wf_transaction t = true) (transactions s) ->
  Forall (fun t => wf_transaction t = true)
         (transactions (fst (add_transaction os s a c k d now))).
Proof.
  intros H.
  destruct (add_transaction_list os s a c k d now) as [-> | (t & Ht & ->)];
    [assumption|].
  apply Forall_app. split; [assumption|].
  constructor; [|constructor]. eapply Transaction_init_wf, Ht.
Qed.

Lemma delete_transaction_fst (s : Ledger) (i : Z) (now : pydate) :
  fst (delete_transaction s i now) =
  if in_int64 i
  then with_transactions
         {| transactions := transactions s;
            finance_db := delete (finance_db s) i;
            errors_shown := errors_shown s |}
         (fst (load_rows (delete (finance_db s) i) now (transactions s)))
  else s.
Proof.
  unfold delete_transaction. destruct (in_int64 i); [|reflexivity].
  now rewrite load_transactions_fst.
Qed.

(** Every transaction of a reachable ledger came out of the constructor. *)
Lemma reachable_wf (os : platform) (s : Ledger) :
  reachable os s ->
  Forall (fun t => wf_transaction t = true) (transactions s).
Proof.
  induction 1 as [db now s Hinit | s s' _ IH Hstep].
  - apply (f_equal fst) in Hinit. cbn [fst] in Hinit.
    unfold FinanceManager_init in Hinit.
    rewrite load_transactions_fst in Hinit. subst s.
    cbn [with_transactions transactions finance_db].
    apply load_rows_wf. constructor.
  - destruct Hstep as [s a c k d now | s i now].
    + now apply add_transaction_wf.
    + rewrite delete_transaction_fst. destruct (in_int64 i); [|assumption].
      cbn [with_transactions transactions finance_db].
      now apply load_rows_wf.
Qed.

(** ** Totals and balance *)

Lemma float_eqb_refl (f : float) :
  Float64.eqb f f = negb (Float64.is_nan f).
Proof.
  unfold Float64.eqb, SFeqb.
  destruct f as [s | s | | s m e]; try destruct s; cbn;
    try reflexivity;
    now rewrite Z.compare_refl, Pos.compare_cont_refl.
Qed.

(** A number equals itself, unless it is a NaN. *)
Lemma py_eq_refl (n : num) : py_eq n n = negb (num_is_nan n).
Proof.
  destruct n as [z | f]; cbn [py_eq num_is_nan].
  - apply Z.eqb_refl.
  - apply float_eqb_refl.
Qed.

Lemma amounts_whole (l : list Transaction) :
  Forall whole_amount l ->
  amounts l = map Float64.of_Z (map amount_Z l).
Proof.
  induction 1 as [|t l Ht _ IH]; [reflexivity|].
  unfold amounts in *. cbn [map]. f_equal; [exact Ht | exact IH].
Qed.

Lemma amounts_positive (l : list Transaction) :
  Forall (fun t => wf_transaction t = true) l ->
  Forall whole_amount l ->
  Forall (fun z => 0 < z) (map amount_Z l).
Proof.
  intros Hwf. induction Hwf as [|t l Ht _ IH]; intros Hw; [constructor|].
  inversion Hw as [|? ? Hw1 Hw2]; subst. cbn [map].
  constructor; [|now apply IH].
  apply Whole.whole_positive; [exact Hw1|].
  unfold wf_transaction in Ht. apply andb_true_iff in Ht as [_ Ht].
  now apply negb_true_iff in Ht.
Qed.

Lemma Forall_filter {A} (P : A -> Prop) (p : A -> bool) (l : list A) :
  Forall P l -> Forall P (filter p l).
Proof.
  induction 1 as [|x l Hx _ IH]; [constructor|].
  cbn [filter]. destruct (p x); [constructor|]; assumption.
Qed.

Lemma total_Z_filter (p : Transaction -> bool) (l : list Transaction) :
  Forall (fun z => 0 < z) (map amount_Z l) ->
  0 <= total_Z (filter p l) <= total_Z l.
Proof.
  unfold total_Z. induction l as [|t l IH]; cbn [map filter fold_right];
    [lia|].
  intros H. inversion H as [|? ? H1 H2]; subst. specialize (IH H2).
  destruct (p t); cbn [map fold_right]; lia.
Qed.

(** The sum of whole amounts is the float of the sum of the integers,
    as long as that is below 2^53. *)
Lemma sum_of_whole_amounts (alg : sum_algorithm) (l : list Transaction) :
  Forall (fun t => wf_transaction t = true) l ->
  Forall whole_amount l ->
  total_Z l < 2 ^ 53 ->
  py_sum alg (amounts l) =
  match l with
  | [] => NInt 0
  | _ => NFloat (Float64.of_Z (total_Z l))
  end.
Proof.
  intros Hwf Hw Hs. rewrite (amounts_whole l Hw).
  rewrite Whole.py_sum_whole;
    [now destruct l | now apply amounts_positive | exact Hs].
Qed.

(** The difference of two such sums. *)
Lemma num_sub_whole (a b : num) (x y : Z) :
  a = NInt 0 /\ x = 0 \/ a = NFloat (Float64.of_Z x) ->
  b = NInt 0 /\ y = 0 \/ b = NFloat (Float64.of_Z y) ->
  Z.abs x < 2 ^ 53 -> Z.abs y < 2 ^ 53 -> Z.abs (x - y) < 2 ^ 53 ->
  py_eq (num_sub a b) (NInt (x - y)) = true.
Proof.
  intros [[-> ->] | ->] [[-> ->] | ->] Hx Hy Hxy; cbn [num_sub num_float].
  - reflexivity.
  - rewrite Exact.sub_exact by assumption. now apply Whole.py_eq_of_Z.
  - rewrite Exact.sub_exact by assumption. now apply Whole.py_eq_of_Z.
  - rewrite Exact.sub_exact by assumption. now apply Whole.py_eq_of_Z.
Qed.

Lemma sum_shape (l : list Transaction) :
  match l with
  | [] => NInt 0
  | _ => NFloat (Float64.of_Z (total_Z l))
  end = NInt 0 /\ total_Z l = 0 \/
  match l with
  | [] => NInt 0
  | _ => NFloat (Float64.of_Z (total_Z l))
  end = NFloat (Float64.of_Z (total_Z l)).
Proof. destruct l; [left|right]; now split. Qed.

(** The totals of a list of whole amounts, for the transactions that
    satisfy [p] and [q]. *)
Lemma totals_of_whole_amounts (alg : sum_algorithm)
    (p q : Transaction -> bool) (l : list Transaction) :
  Forall (fun t => wf_transaction t = true) l ->
  Forall whole_amount l ->
  total_Z l < 2 ^ 53 ->
  py_eq (py_sum alg (amounts (filter p l))) (NInt (total_Z (filter p l)))
    = true /\
  py_eq (num_sub (py_sum alg (amounts (filter p l)))
                 (py_sum alg (amounts (filter q l))))
        (NInt (total_Z (filter p l) - total_Z (filter q l))) = true.
Proof.
  intros Hwf Hw Hs.
  pose proof (amounts_positive l Hwf Hw) as Hpos.
  pose proof (total_Z_filter p l Hpos) as Hp.
  pose proof (total_Z_filter q l Hpos) as Hq.
  rewrite !sum_of_whole_amounts
    by (try apply Forall_filter; try assumption; lia).
  split.
  - destruct (sum_shape (filter p l)) as [[-> ->] | ->]; [reflexivity|].
    apply Whole.py_eq_of_Z. lia.
  - apply num_sub_whole; try apply sum_shape; lia.
Qed.

Lemma infinite_reachable : reachable Sample.os Sample.infinite.
Proof.
  unfold Sample.infinite.
  apply (reachable_step _ _ _
           (reachable_step _ _ _
              (reachable_init _ [] Sample.now Sample.fresh eq_refl)
              (step_add _ _ _ _ _ _ _))
           (step_add _ _ _ _ _ _ _)).
Qed.

(** C3, as written, fails: an amount may be infinite, and a ledger with
    an infinite income and an infinite expense has a NaN as its balance,
    which equals nothing, for either summation. *)
Lemma balance_counterexample :
  ~ balance_equals_difference LeftToRight /\
  ~ balance_equals_difference Compensated.
Proof.
  split; intros H;
    specialize (H Sample.os Sample.infinite infinite_reachable);
    vm_compute in H; discriminate H.
Qed.

(** C3, amended. In every ledger reached by additions and deletions,
    every transaction is of exactly one of the two kinds, and the
    balance equals the total income minus the total expenses unless it
    is a NaN. When the amounts are whole numbers whose sum is below
    2^53, nothing is rounded: the total income equals the sum of the
    amounts of kind income, the total expenses the sum of those of kind
    expense, and the balance their difference, as integers. *)
Theorem balance_is_income_minus_expenses (os : platform)
    (alg : sum_algorithm) (s : Ledger) :
  reachable os s ->
  (forall t, In t (transactions s) -> is_income t = negb (is_expense t)) /\
  py_eq (get_balance alg s)
        (num_sub (get_total_income alg s) (get_total_expenses alg s))
    = negb (num_is_nan (get_balance alg s)) /\
  (Forall whole_amount (transactions s) ->
   total_Z (transactions s) < 2 ^ 53 ->
   py_eq (get_total_income alg s)
         (NInt (total_Z (filter is_income (transactions s)))) = true /\
   py_eq (get_total_expenses alg s)
         (NInt (total_Z (filter is_expense (transactions s)))) = true /\
   py_eq (get_balance alg s)
         (NInt (total_Z (filter is_income (transactions s)) -
                total_Z (filter is_expense (transactions s)))) = true /\
   py_eq (get_balance alg s)
         (num_sub (get_total_income alg s) (get_total_expenses alg s))
     = true).
Proof.
  intros Hs. apply reachable_wf in Hs. split; [|split].
  - intros t Ht. rewrite Forall_forall in Hs.
    exact (wf_income_or_expense t (Hs t Ht)).
  - apply py_eq_refl.
  - intros Hw Hb. unfold get_balance, get_total_income, get_total_expenses.
    destruct (totals_of_whole_amounts alg is_income is_expense _ Hs Hw Hb)
      as [Hi Hd].
    destruct (totals_of_whole_amounts alg is_expense is_income _ Hs Hw Hb)
      as [He _].
    repeat split; try assumption.
    rewrite py_eq_refl.
    destruct (num_sub _ _) as [z | f]; [reflexivity|].
    destruct f; try reflexivity. discriminate Hd.
Qed.

Lemma salary_rent_reachable : reachable Sample.os Sample.salary_rent.
Proof.
  unfold Sample.salary_rent.
  apply (reachable_step _ _ _
           (reachable_step _ _ _
              (reachable_init _ [] Sample.now Sample.fresh eq_refl)
              (step_add _ _ _ _ _ _ _))
           (step_add _ _ _ _ _ _ _)).
Qed.

Lemma balance_is_income_minus_expenses_witness :
  py_eq (get_total_income Compensated Sample.salary_rent) (NInt 1200) = true /\
  py_eq (get_total_expenses Compensated Sample.salary_rent) (NInt 300) = true /\
  py_eq (get_balance Compensated Sample.salary_rent) (NInt 900) = true.
Proof.
  pose proof (proj2 (proj2 (balance_is_income_minus_expenses Sample.os
                              Compensated Sample.salary_rent
                              salary_rent_reachable))) as H.
  assert (Hw : Forall whole_amount (transactions Sample.salary_rent)).
  { repeat (apply Forall_cons; [vm_compute; reflexivity|]).
    apply Forall_nil. }
  assert (Hb : total_Z (transactions Sample.salary_rent) < 2 ^ 53).
  { vm_compute. reflexivity. }
  destruct (H Hw Hb) as (Hi & He & Hd & _).
  repeat split; assumption.
Defined.

(** The totals of the example of the specification. *)
Example salary_rent_totals (alg : sum_algorithm) :
  get_total_income alg Sample.salary_rent = NFloat (Float64.of_Z 1200) /\
  get_total_expenses alg Sample.salary_rent = NFloat (Float64.of_Z 300) /\
  get_balance alg Sample.salary_rent = NFloat (Float64.of_Z 900) /\
  get_category_totals Sample.salary_rent =
    ([("Rent", Float64.of_Z 300)], [("Salary", Float64.of_Z 1200)]).
Proof. destruct alg; vm_compute; repeat split. Qed.

(** ** Additions that the constructor refuses *)



(** ** Deleting *)

(** A deletion removes the row and then loads the table onto the list
    as it stands: the list after it is the list before it followed by
    the transactions loaded from the remaining rows. *)
Lemma delete_transaction_appends (s : Ledger) (i : Z) (now : pydate) :
  in_int64 i = true ->
  let s' := fst (delete_transaction s i now) in
  finance_db s' = delete (finance_db s) i /\
  transactions s' =
    (transactions s ++ fst (load_rows (delete (finance_db s) i) now []))%list.
Proof.
  intros Hi. cbv zeta. rewrite delete_transaction_fst, Hi.
  cbn [with_transactions transactions finance_db].
  split; [reflexivity|]. now rewrite load_rows_acc.
Qed.

(** C4 says that a deletion discards the list and rebuilds it from the
    table, so that the list is what the table holds. On the ledger with
    one expense stored as row 1 the code does otherwise: deleting row 1
    succeeds and empties the table, the list keeps the expense, and it
    differs from what a load of the table gives. *)
Theorem delete_keeps_the_list :
  let (s', r) := delete_transaction Sample.one_expense 1 Sample.now in
  r = Ok tt /\
  finance_db s' = [] /\
  transactions s' = transactions Sample.one_expense /\
  transactions s' <>
    transactions (fst (FinanceManager_init (finance_db s') Sample.now)).
Proof. cbv beta iota zeta. vm_compute. repeat split. discriminate. Qed.

(** Deleting a row that is not there loads every row a second time. *)
Example delete_absent_duplicates :
  map category
      (transactions (fst (delete_transaction Sample.salary_rent 7 Sample.now)))
  = ["Salary"; "Rent"; "Salary"; "Rent"].
Proof. reflexivity. Qed.

(** After a deletion the list is not, in general, what a load of the
    table gives. *)
Lemma delete_does_not_rebuild : ~ delete_rebuilds_from_storage.
Proof.
  intros H.
  specialize (H Sample.one_expense 1 Sample.now _ eq_refl).
  discriminate H.
Qed.

(** ** Adding and reloading *)

Lemma float_gt0_not_nan (f : float) :
  Float64.ltb Float64.zero f = true -> bind_real f = Some f.
Proof. destruct f; try reflexivity. discriminate. Qed.

Lemma written_in_full_ok (os : platform) (d : pydate) :
  written_in_full os d = true ->
  PyTime.pydate_ok d = true /\
  (year_padded os = true \/ 1000 <= date_year d).
Proof.
  unfold written_in_full. intros H. apply andb_true_iff in H as [H1 H2].
  split; [exact H1|]. apply orb_true_iff in H2 as [H2 | H2]; [now left|].
  right. now apply Z.leb_le.
Qed.

(** The row that an addition writes, read back by the loop of the load. *)
Lemma load_written_row (os : platform) (i : Z) (t : Transaction)
    (now : pydate) (acc : list Transaction) :
  wf_transaction t = true ->
  written_in_full os (date t) = true ->
  load_rows [{| id := i; row_amount := bind_real (amount t);
                row_category := category t; row_type := type t;
                row_date := PyTime.strftime (year_padded os) (date t) |}]
            now acc =
  if Float64.is_nan (amount t)
  then (acc, Raise InvalidAmount)
  else ((acc ++ [stored t])%list, Ok tt).
Proof.
  intros Hwf Hd. apply written_in_full_ok in Hd as [Hd Hy].
  cbn [load_rows row_date row_amount row_category row_type].
  rewrite (PyTimeFacts.strptime_strftime _ _ Hd Hy).
  unfold wf_transaction in Hwf. apply andb_true_iff in Hwf as [Hk Hle].
  apply negb_true_iff in Hle. unfold bind_real.
  destruct (Float64.is_nan (amount t)) eqn:Hnan; [reflexivity|].
  cbn [real_value].
  rewrite (Transaction_init_checked _ (NFloat (amount t)))
    by (try reflexivity; exact Hle).
  destruct (wf_type t) as [Hty | Hty];
    [unfold wf_transaction; now rewrite Hk, Hle | |];
    rewrite Hty; cbn [num_to_float bind]; unfold stored; rewrite Hty;
    reflexivity.
Qed.

Lemma nan_first_reachable : reachable Sample.padded Sample.nan_first.
Proof.
  unfold Sample.nan_first.
  apply (reachable_step _ _ _
           (reachable_init _ [] Sample.now Sample.fresh eq_refl)
           (step_add _ _ _ _ _ _ _)).
Qed.

Lemma fresh_reachable (os : platform) : reachable os Sample.fresh.
Proof. exact (reachable_init _ [] Sample.now Sample.fresh eq_refl). Qed.

(** C5, as written, fails in two ways. With glibc an expense dated in
    the year 5 is written as '5-01-01 00:00:00', which does not load.
    And on any machine, after a NaN has been added (it is stored as
    NULL), no later transaction is reached by a load: the load stops at
    the NULL with [InvalidAmount]. *)
Lemma reload_counterexample :
  ~ added_transaction_reloads Sample.os /\
  ~ added_transaction_reloads Sample.padded.
Proof.
  split; intros H.
  - destruct (H Sample.fresh (PyInt 10) "Food" "expense"
                (Some (PyDate 5 1 1)) Sample.now Sample.now _
                (fresh_reachable _) eq_refl eq_refl eq_refl) as [txs Ht].
    apply (f_equal snd) in Ht. vm_compute in Ht. discriminate Ht.
  - destruct (H Sample.nan_first (PyInt 10) "Food" "expense"
                (Some (PyDate 2024 1 5)) Sample.now Sample.now _
                nan_first_reachable eq_refl eq_refl eq_refl) as [txs Ht].
    apply (f_equal snd) in Ht. vm_compute in Ht. discriminate Ht.
Qed.

(** What the text of the year 5 is, and how the load fails on it. *)
Example year_5_does_not_load :
  PyTime.strftime false (PyDate 5 1 1) = "5-01-01 00:00:00" /\
  PyTime.strptime "5-01-01 00:00:00" =
    Raise (ValueError
      "time data '5-01-01 00:00:00' does not match format '%Y-%m-%d %H:%M:%S'").
Proof. split; reflexivity. Qed.

(** C5, amended. When the constructor accepts an addition with a
    positive amount and a date that the platform writes with a year of
    four digits, and the table has not used its largest row number, the
    addition returns True and appends the transaction; a manager
    started on the table afterwards loads the rows that were there and
    then a transaction with the same amount, category and kind, and
    with the date of the added transaction at whole seconds. When one
    of the rows that were there does not load, the start stops there
    with the error of that row. *)
Theorem add_then_reload (os : platform) (s : Ledger) (a : pyval)
    (c k : string) (d : option pydate) (now now' : pydate)
    (t : Transaction) :
  Transaction_init a c k d now = Ok t ->
  positive_number a = true ->
  written_in_full os (date t) = true ->
  has_room (finance_db s) = true ->
  let s' := fst (add_transaction os s a c k d now) in
  snd (add_transaction os s a c k d now) = Ok true /\
  transactions s' = (transactions s ++ [t])%list /\
  FinanceManager_init (finance_db s') now' =
    match load_rows (finance_db s) now' [] with
    | (txs, Ok tt) =>
        ({| transactions := (txs ++ [stored t])%list;
            finance_db := finance_db s';
            errors_shown := [] |}, Ok tt)
    | (txs, Raise e) =>
        ({| transactions := txs;
            finance_db := finance_db s';
            errors_shown := [] |}, Raise e)
    end.
Proof.
  intros Hinit Hpos Hdate Hroom.
  destruct (Transaction_init_Ok _ _ _ _ _ _ Hinit)
    as (n & Hn & Hle & Hk & Hf & _ & Hty & _).
  unfold positive_number in Hpos. rewrite Hn in Hpos.
  pose proof (num_to_float_gt0 n _ Hpos Hf) as Hgt.
  cbv zeta. rewrite (add_transaction_room _ _ _ _ _ _ _ _ Hinit Hroom).
  cbn [fst snd transactions finance_db].
  split; [reflexivity|]. split; [reflexivity|].
  unfold FinanceManager_init, load_transactions.
  cbn [finance_db transactions].
  rewrite load_rows_split.
  destruct (load_rows (finance_db s) now' []) as [txs [[]|e]];
    [|reflexivity].
  rewrite (load_written_row os _ t now' txs
             (Transaction_init_wf _ _ _ _ _ _ Hinit) Hdate).
  destruct (amount t); try reflexivity; discriminate Hgt.
Qed.

Lemma add_then_reload_witness :
  exists t,
    Transaction_init (PyInt 300) "Rent" "Expense" None Sample.now = Ok t /\
    FinanceManager_init
      (finance_db (fst (add_transaction Sample.os Sample.one_expense
                          (PyInt 300) "Rent" "Expense" None Sample.now)))
      Sample.now =
      ({| transactions :=
            (transactions (fst (FinanceManager_init
                                  (finance_db Sample.one_expense) Sample.now))
             ++ [{| amount := amount t;
                    category := "Rent";
                    type := "expense";
                    date := PyDateTime 2024 1 5 10 30 15 0 |}])%list;
          finance_db :=
            finance_db (fst (add_transaction Sample.os Sample.one_expense
                               (PyInt 300) "Rent" "Expense" None Sample.now));
          errors_shown := [] |}, Ok tt).
Proof.
  eexists. split; [reflexivity|].
  refine (proj2 (proj2 (add_then_reload Sample.os Sample.one_expense
                          (PyInt 300) "Rent" "Expense" None Sample.now
                          Sample.now _ eq_refl eq_refl eq_refl eq_refl))).
Defined.

(** ** Filtering by category *)

Lemma category_matches_eq_ci (c : string) (t : Transaction) :
  category_matches c t = PyStr.eq_ci (category t) c.
Proof. unfold category_matches. now rewrite PyStrFacts.eq_ci_lower. Qed.

(** C7, as written, fails at the empty string: it is false in the test
    of the function, and every transaction is returned. *)
Lemma filter_counterexample : ~ filter_is_case_insensitive_match.
Proof.
  intros H. specialize (H Sample.salary_rent ""). discriminate H.
Qed.

(** C7, amended. For a category string that is not empty the function
    returns, in the order of the list, exactly the transactions whose
    category matches it case-insensitively; for the empty string, as for
    no category, it returns the whole list. *)
Theorem filter_by_category (s : Ledger) :
  (forall c0 c,
      get_transactions_by_category s (Some (String c0 c)) =
      filter (fun t => PyStr.eq_ci (category t) (String c0 c))
             (transactions s)) /\
  get_transactions_by_category s (Some "") = transactions s /\
  get_transactions_by_category s None = transactions s.
Proof.
  split; [|split; reflexivity].
  intros c0 c. unfold get_transactions_by_category. cbn [PyStr.truthy].
  apply filter_ext. intros t. apply category_matches_eq_ci.
Qed.

(** ** Dictionaries *)

Module PyDictFacts.
Import PyDict.

Lemma lookup_set (d : dict) (k k' : string) (v : float) :
  lookup (set d k v) k' = if String.eqb k k' then Some v else lookup d k'.
Proof.
  induction d as [|[k0 v0] r IH]; cbn [set lookup].
  - reflexivity.
  - destruct (String.eqb_spec k0 k) as [-> | Hk]; cbn [lookup].
    + now destruct (String.eqb k k').
    + rewrite IH.
      destruct (String.eqb_spec k0 k') as [-> | Hk']; [|reflexivity].
      destruct (String.eqb_spec k k') as [-> | _]; [contradiction|reflexivity].
Qed.

Lemma lookup_None (d : dict) (k : string) :
  ~ In k (keys d) -> lookup d k = None.
Proof.
  induction d as [|[k0 v0] r IH]; cbn [lookup keys map fst]; [reflexivity|].
  intros H. destruct (String.eqb_spec k0 k) as [-> | _].
  - exfalso. apply H. now left.
  - apply IH. intros Hin. apply H. now right.
Qed.

(** Setting a key that is not there appends the entry. *)
Lemma set_new (d : dict) (k : string) (v : float) :
  ~ In k (keys d) -> set d k v = (d ++ [(k, v)])%list.
Proof.
  induction d as [|[k0 v0] r IH]; cbn [set keys map fst app]; [reflexivity|].
  intros H. destruct (String.eqb_spec k0 k) as [-> | _].
  - exfalso. apply H. now left.
  - f_equal. apply IH. intros Hin. apply H. now right.
Qed.

(** Setting a key never changes the keys that were there, and adds at
    most the key at the end. *)
Lemma keys_set (d : dict) (k : string) (v : float) :
  keys (set d k v) = if in_dec string_dec k (keys d)
                     then keys d else (keys d ++ [k])%list.
Proof.
  induction d as [|[k0 v0] r IH]; cbn [set keys map fst]; [reflexivity|].
  destruct (String.eqb_spec k0 k) as [-> | Hk].
  - cbn [map fst]. destruct (in_dec string_dec k (k :: map fst r)) as [_ | n];
      [reflexivity|]. exfalso. apply n. now left.
  - cbn [map fst]. fold (keys (set r k v)). rewrite IH. fold (keys r).
    destruct (in_dec string_dec k (keys r)) as [i | n];
      destruct (in_dec string_dec k (k0 :: keys r)) as [i' | n'];
      try reflexivity.
    + exfalso. apply n'. now right.
    + destruct i' as [-> | i']; [contradiction|contradiction].
Qed.

Lemma NoDup_keys_set (d : dict) (k : string) (v : float) :
  NoDup (keys d) -> NoDup (keys (set d k v)).
Proof.
  intros H. rewrite keys_set.
  destruct (in_dec string_dec k (keys d)) as [_ | n]; [assumption|].
  apply NoDup_app; repeat split; try assumption.
  - constructor; [intros []|constructor].
  - intros x Hx [<- | []]. contradiction.
Qed.

End PyDictFacts.

(** ** Category totals *)

(** The total of a group to which a transaction is appended. *)
Lemma group_total_snoc (g : list Transaction) (t : Transaction) :
  group_total (g ++ [t]) =
  Some (add_float match group_total g with
                  | Some v => NFloat v
                  | None => NInt 0
                  end (amount t)).
Proof.
  destruct g as [|t0 g']; [reflexivity|].
  cbn [group_total app]. f_equal.
  unfold amounts. now rewrite map_app, fold_left_app.
Qed.

Lemma labelled_snoc (c : string) (l : list Transaction) (t : Transaction) :
  labelled c (l ++ [t]) =
  (labelled c l ++ if String.eqb (category t) c then [t] else [])%list.
Proof. unfold labelled. now rewrite filter_app. Qed.

(** The entry that [accumulate] leaves under each label. *)
Lemma lookup_accumulate (d : PyDict.dict) (k c : string) (a : float) :
  PyDict.lookup (accumulate d k a) c =
  if String.eqb k c
  then Some (add_float match PyDict.lookup d k with
                       | Some v => NFloat v
                       | None => NInt 0
                       end a)
  else PyDict.lookup d c.
Proof. unfold accumulate, PyDict.get. now rewrite PyDictFacts.lookup_set. Qed.

Lemma by_label_skip p l d t :
  p t = false -> by_label p l d -> by_label p (l ++ [t]) d.
Proof.
  intros Hp [Hk H]. split; [assumption|]. intros c.
  rewrite filter_app. cbn [filter]. rewrite Hp, app_nil_r. apply H.
Qed.

Lemma by_label_accumulate p l d t :
  p t = true -> by_label p l d ->
  by_label p (l ++ [t]) (accumulate d (category t) (amount t)).
Proof.
  intros Hp [Hk H]. split; [now apply PyDictFacts.NoDup_keys_set|].
  intros c. rewrite lookup_accumulate, filter_app. cbn [filter].
  rewrite Hp, labelled_snoc.
  destruct (String.eqb_spec (category t) c) as [<- | _].
  - now rewrite group_total_snoc, H.
  - now rewrite app_nil_r.
Qed.

Lemma category_totals_by_label (l : list Transaction) :
  by_label is_expense l (fst (fold_left category_step l ([], []))) /\
  by_label (fun t => negb (is_expense t)) l
           (snd (fold_left category_step l ([], []))).
Proof.
  induction l as [|t l [IHe IHi]] using rev_ind.
  - split; (split; [constructor | reflexivity]).
  - rewrite fold_left_app. cbn [fold_left].
    destruct (fold_left category_step l ([], [])) as [e i].
    cbn [fst snd] in IHe, IHi. unfold category_step.
    destruct (is_expense t) eqn:Ht; cbn [fst snd]; split.
    + now apply by_label_accumulate.
    + apply by_label_skip; [now rewrite Ht | assumption].
    + now apply by_label_skip.
    + apply by_label_accumulate; [now rewrite Ht | assumption].
Qed.

(** C8, as written, fails: 'Food' and 'food' are two entries. *)
Lemma grouping_counterexample : ~ totals_group_case_insensitively.
Proof.
  intros H.
  pose (t := {| amount := Float64.of_Z 10; category := "Food";
                type := "expense"; date := Sample.now |}).
  assert (Hin : In t (transactions Sample.food_twice)) by (left; reflexivity).
  specialize (H _ _ Hin). discriminate H.
Qed.

(** C8, amended. The category totals group by the label as it is
    written. In each of the two mappings the keys are distinct, and the
    entry under a label is the sum, in the order of the list, of the
    amounts of the transactions of that mapping whose category is
    exactly that label; there is no entry when there is none. The first
    mapping takes the transactions of kind expense, the second all the
    others. *)
Theorem category_totals_by_exact_label (s : Ledger) (c : string) :
  let (expense_categories, income_categories) := get_category_totals s in
  NoDup (PyDict.keys expense_categories) /\
  NoDup (PyDict.keys income_categories) /\
  PyDict.lookup expense_categories c =
    group_total (labelled c (filter is_expense (transactions s))) /\
  PyDict.lookup income_categories c =
    group_total (labelled c (filter (fun t => negb (is_expense t))
                                    (transactions s))).
Proof.
  unfold get_category_totals.
  destruct (category_totals_by_label (transactions s)) as [[Hk He] [Hk' Hi]].
  destruct (fold_left category_step (transactions s) ([], [])) as [e i].
  cbn [fst snd] in *. auto.
Qed.

(** ** Sums of category totals *)

(** The first entry of a label holds the amount itself. *)
Lemma accumulate_new (d : PyDict.dict) (t : Transaction) :
  wf_transaction t = true ->
  ~ In (category t) (PyDict.keys d) ->
  accumulate d (category t) (amount t) = (d ++ [entry t])%list.
Proof.
  intros Hwf Hin. unfold accumulate, PyDict.get.
  rewrite (PyDictFacts.lookup_None _ _ Hin).
  rewrite (PyDictFacts.set_new _ _ _ Hin). unfold entry, add_float, num_float.
  apply andb_true_iff in Hwf as [_ Ha]. apply negb_true_iff in Ha.
  now rewrite (add_zero_l _ Ha).
Qed.

Lemma keys_entries (l : list Transaction) :
  PyDict.keys (map entry l) = map category l.
Proof. unfold PyDict.keys. rewrite map_map. reflexivity. Qed.

Lemma values_entries (l : list Transaction) :
  PyDict.values (map entry l) = amounts l.
Proof. unfold PyDict.values, amounts. rewrite map_map. reflexivity. Qed.

Lemma NoDup_snoc {A} (l : list A) (x : A) :
  NoDup (l ++ [x]) -> NoDup l /\ ~ In x l.
Proof.
  intros H. apply NoDup_remove in H. rewrite app_nil_r in H. exact H.
Qed.

(** With distinct labels each mapping lists its transactions one by one. *)
Lemma category_totals_distinct (l : list Transaction) :
  Forall (fun t => wf_transaction t = true) l ->
  NoDup (map category (filter is_expense l)) ->
  NoDup (map category (filter (fun t => negb (is_expense t)) l)) ->
  fold_left category_step l ([], []) =
  (map entry (filter is_expense l),
   map entry (filter (fun t => negb (is_expense t)) l)).
Proof.
  induction l as [|t l IH] using rev_ind; [reflexivity|].
  intros Hwf He Hi.
  apply Forall_app in Hwf as [Hwf Ht]. inversion_clear Ht as [|? ? Ht' _].
  rewrite filter_app, map_app in He, Hi. cbn [filter] in He, Hi.
  rewrite fold_left_app, !filter_app, !map_app. cbn [fold_left filter].
  unfold category_step at 1.
  destruct (is_expense t) eqn:Hk; cbn [negb map] in *;
    rewrite ?app_nil_r in *.
  - apply NoDup_snoc in He as [He Hnew].
    rewrite (IH Hwf He Hi). f_equal.
    apply accumulate_new; [assumption|now rewrite keys_entries].
  - apply NoDup_snoc in Hi as [Hi Hnew].
    rewrite (IH Hwf He Hi). f_equal.
    apply accumulate_new; [assumption|now rewrite keys_entries].
Qed.

Lemma filter_income (l : list Transaction) :
  Forall (fun t => wf_transaction t = true) l ->
  filter (fun t => negb (is_expense t)) l = filter is_income l.
Proof.
  intros H. apply filter_ext_in. intros t Ht.
  rewrite Forall_forall in H. symmetry. apply wf_income_or_expense, H, Ht.
Qed.

(** C10, as written, fails, with either algorithm of [sum]: the mapping
    adds the amounts label by label and the total adds them in the order
    of the list, and the two roundings differ. *)
Lemma category_sums_counterexample :
  ~ category_sums_equal_totals LeftToRight /\
  ~ category_sums_equal_totals Compensated.
Proof.
  assert (Hk : Forall (fun t => str_in (type t) valid_types = true)
                      (transactions Sample.large_small)).
  { vm_compute. repeat constructor. }
  split; intros H; destruct (H Sample.large_small Hk) as [He _];
    vm_compute in He; discriminate He.
Qed.

(** [d[k] = d.get(k, 0) + a], entry by entry. *)
Lemma accumulate_cons (k' : string) (v : float) (d : PyDict.dict)
    (k : string) (a : float) :
  accumulate ((k', v) :: d) k a =
  if String.eqb k' k
  then (k', add_float (NFloat v) a) :: d
  else (k', v) :: accumulate d k a.
Proof.
  unfold accumulate, PyDict.get. cbn [PyDict.lookup PyDict.set].
  now destruct (String.eqb k' k).
Qed.

Lemma whole_of_Z (z : Z) :
  Z.abs z < 2 ^ 53 -> Float64.whole (Float64.of_Z z).
Proof.
  intros Hz. unfold Float64.whole. now rewrite Whole.trunc_of_Z.
Qed.

(** Adding a whole amount to a mapping of whole values: nothing is
    rounded while the sum of the values stays below 2^53. *)
Lemma accumulate_whole (d : PyDict.dict) (k : string) (a : float)
    (total : Z) :
  whole_values d total ->
  Float64.whole a -> 0 < Float64.trunc a ->
  total + Float64.trunc a < 2 ^ 53 ->
  whole_values (accumulate d k a) (total + Float64.trunc a).
Proof.
  intros [Hv Hs] Ha Hpos. unfold Float64.whole in Ha. revert total Hs.
  induction d as [|[k' v] d IH]; intros total Hs Hb.
  - cbn in Hs. subst total. unfold accumulate, PyDict.get.
    cbn [PyDict.lookup PyDict.set add_float num_float].
    assert (E : Float64.add (Float64.of_Z 0) a = a).
    { rewrite Ha at 1. rewrite Exact.add_exact by (cbn; lia).
      cbn [Z.add]. now rewrite <- Ha. }
    change (add_float (NInt 0) a) with (Float64.add (Float64.of_Z 0) a).
    rewrite E. split; [repeat constructor; assumption|]. cbn. lia.
  - rewrite accumulate_cons.
    unfold PyDict.values in Hv, Hs. cbn [map snd fold_right] in Hv, Hs.
    inversion Hv as [|? ? [Hw Hp] Hv']; subst.
    unfold Float64.whole in Hw.
    assert (Hnn : 0 <= fold_right Z.add 0
                         (map Float64.trunc (PyDict.values d))).
    { clear - Hv'. unfold PyDict.values.
      induction Hv' as [|? ? [_ ?] _ IH']; cbn; lia. }
    unfold PyDict.values in Hnn.
    destruct (String.eqb k' k).
    + change (add_float (NFloat v) a) with (Float64.add v a).
      assert (E : Float64.add v a =
                  Float64.of_Z (Float64.trunc v + Float64.trunc a)).
      { rewrite Hw at 1. rewrite Ha at 1.
        apply Exact.add_exact; lia. }
      rewrite E. split.
      * unfold PyDict.values. cbn [map snd]. constructor; [|exact Hv'].
        rewrite Whole.trunc_of_Z by lia.
        split; [apply whole_of_Z|]; lia.
      * unfold PyDict.values. cbn [map snd fold_right].
        rewrite Whole.trunc_of_Z by lia. lia.
    + destruct (IH Hv' _ eq_refl) as [Hv2 Hs2];
        [unfold PyDict.values; lia|].
      split.
      * unfold PyDict.values in *. cbn [map snd]. constructor;
          [now split | exact Hv2].
      * unfold PyDict.values in *. cbn [map snd fold_right].
        rewrite Hs2. lia.
Qed.

Lemma total_Z_snoc (l : list Transaction) (t : Transaction) :
  total_Z (l ++ [t]) = total_Z l + amount_Z t.
Proof.
  unfold total_Z. induction l as [|t0 l IH]; cbn [app map fold_right];
    [lia|]. rewrite IH. lia.
Qed.

(** The two mappings of whole amounts hold whole values, with the sums
    of the two parts of the list. *)
Lemma category_totals_whole (l : list Transaction) :
  Forall (fun t => wf_transaction t = true) l ->
  Forall whole_amount l ->
  total_Z l < 2 ^ 53 ->
  whole_values (fst (fold_left category_step l ([], [])))
               (total_Z (filter is_expense l)) /\
  whole_values (snd (fold_left category_step l ([], [])))
               (total_Z (filter (fun t => negb (is_expense t)) l)).
Proof.
  induction l as [|t l IH] using rev_ind; intros Hwf Hw Hb.
  - split; (split; [constructor | reflexivity]).
  - apply Forall_app in Hwf as [Hwf Ht]. inversion_clear Ht as [|? ? Ht' _].
    apply Forall_app in Hw as [Hw Hwt]. inversion_clear Hwt as [|? ? Hwt' _].
    pose proof (amounts_positive l Hwf Hw) as Hpos.
    assert (Hz : 0 < amount_Z t).
    { apply Whole.whole_positive; [exact Hwt'|].
      unfold wf_transaction in Ht'. apply andb_true_iff in Ht' as [_ Ht'].
      now apply negb_true_iff in Ht'. }
    rewrite total_Z_snoc in Hb.
    pose proof (total_Z_filter is_expense l Hpos) as He.
    pose proof (total_Z_filter (fun t => negb (is_expense t)) l Hpos) as Hi.
    destruct IH as [IHe IHi]; [assumption | assumption | lia |].
    rewrite fold_left_app, !filter_app. cbn [fold_left filter].
    destruct (fold_left category_step l ([], [])) as [e i].
    cbn [fst snd] in IHe, IHi. unfold category_step.
    destruct (is_expense t) eqn:Hk; cbn [negb fst snd];
      rewrite ?app_nil_r, ?total_Z_snoc; split; try assumption;
      apply accumulate_whole; try assumption; unfold amount_Z in *; lia.
Qed.

(** The sum of the values of such a mapping. *)
Lemma sum_of_whole_values (alg : sum_algorithm) (d : PyDict.dict)
    (total : Z) :
  whole_values d total -> total < 2 ^ 53 ->
  py_sum alg (PyDict.values d) =
  if total =? 0 then NInt 0 else NFloat (Float64.of_Z total).
Proof.
  intros [Hv Hs] Hb.
  assert (E : PyDict.values d =
              map Float64.of_Z (map Float64.trunc (PyDict.values d))).
  { clear - Hv. induction Hv as [|v vs [Hw _] _ IH]; [reflexivity|].
    cbn [map]. f_equal; [exact Hw | exact IH]. }
  assert (Hp : Forall (fun z => 0 < z) (map Float64.trunc (PyDict.values d))).
  { clear - Hv. induction Hv as [|v vs [_ Hp] _ IH]; constructor; assumption. }
  rewrite E, Whole.py_sum_whole by (try assumption; lia).
  rewrite Hs.
  destruct (map Float64.trunc (PyDict.values d)) as [|z zs];
    [now subst total|].
  inversion Hp as [|? ? Hz Hzs]; subst.
  assert (0 <= fold_right Z.add 0 zs).
  { clear - Hzs. induction Hzs; cbn; lia. }
  cbn [fold_right]. destruct (Z.eqb_spec (z + fold_right Z.add 0 zs) 0);
    [lia | reflexivity].
Qed.

Lemma sum_of_whole_list (alg : sum_algorithm) (l : list Transaction) :
  Forall (fun t => wf_transaction t = true) l ->
  Forall whole_amount l ->
  total_Z l < 2 ^ 53 ->
  py_sum alg (amounts l) =
  if total_Z l =? 0 then NInt 0 else NFloat (Float64.of_Z (total_Z l)).
Proof.
  intros Hwf Hw Hb. rewrite sum_of_whole_amounts by assumption.
  destruct l as [|t l]; [reflexivity|].
  pose proof (amounts_positive _ Hwf Hw) as Hp.
  unfold total_Z in *. cbn [map fold_right] in *.
  inversion Hp as [|? ? Hz Hzs]; subst.
  assert (0 <= fold_right Z.add 0 (map amount_Z l)).
  { clear - Hzs. induction Hzs; cbn; lia. }
  destruct (Z.eqb_spec (amount_Z t + fold_right Z.add 0 (map amount_Z l)) 0);
    [lia | reflexivity].
Qed.

(** C10, amended. When every transaction is one the constructor returns
    (kind 'expense' or 'income', amount not [<= 0]), the sum of the
    values of the expense mapping is the total of the expenses and the
    sum of the values of the income mapping is the total income in the
    two cases in which no addition rounds differently on the two sides:
    when no label occurs twice among the transactions of a kind, and
    when the amounts are whole numbers whose sum is below 2^53, labels
    repeated or not. *)
Theorem category_sums_without_rounding (alg : sum_algorithm) (s : Ledger) :
  Forall (fun t => wf_transaction t = true) (transactions s) ->
  (NoDup (map category (filter is_expense (transactions s))) /\
   NoDup (map category (filter is_income (transactions s)))) \/
  (Forall whole_amount (transactions s) /\
   total_Z (transactions s) < 2 ^ 53) ->
  py_sum alg (PyDict.values (fst (get_category_totals s)))
    = get_total_expenses alg s /\
  py_sum alg (PyDict.values (snd (get_category_totals s)))
    = get_total_income alg s.
Proof.
  intros Hwf [[He Hi] | [Hw Hb]]; unfold get_category_totals.
  - rewrite <- (filter_income _ Hwf) in Hi.
    rewrite (category_totals_distinct _ Hwf He Hi). cbn [fst snd].
    rewrite !values_entries, (filter_income _ Hwf). split; reflexivity.
  - destruct (category_totals_whole _ Hwf Hw Hb) as [He Hi].
    pose proof (amounts_positive _ Hwf Hw) as Hpos.
    pose proof (total_Z_filter is_expense _ Hpos) as Hbe.
    pose proof (total_Z_filter (fun t => negb (is_expense t)) _ Hpos) as Hbi.
    rewrite (sum_of_whole_values alg _ _ He) by lia.
    rewrite (sum_of_whole_values alg _ _ Hi) by lia.
    unfold get_total_expenses, get_total_income.
    rewrite <- (filter_income _ Hwf).
    rewrite !sum_of_whole_list
      by (try apply Forall_filter; try assumption; lia).
    split; reflexivity.
Qed.

Lemma category_sums_without_rounding_witness :
  fst (get_category_totals Sample.household) =
    [("Rent", Float64.of_Z 300); ("Food", Float64.of_Z 100)] /\
  snd (get_category_totals Sample.household) =
    [("Salary", Float64.of_Z 1350)] /\
  py_sum LeftToRight
         (PyDict.values (fst (get_category_totals Sample.household)))
    = get_total_expenses LeftToRight Sample.household /\
  py_sum LeftToRight
         (PyDict.values (snd (get_category_totals Sample.household)))
    = get_total_income LeftToRight Sample.household.
Proof.
  split; [vm_compute; reflexivity|]. split; [vm_compute; reflexivity|].
  apply (category_sums_without_rounding LeftToRight Sample.household).
  - vm_compute. repeat constructor.
  - right. split.
    + repeat (apply Forall_cons; [vm_compute; reflexivity|]).
      apply Forall_nil.
    + vm_compute. reflexivity.
Defined.

(** * Further properties of the code *)

(** ** The constructor, beyond the checks *)

Lemma float_not_le0_not_nan (f : float) :
  Float64.leb f Float64.zero = false -> Float64.is_nan f = false ->
  Float64.ltb Float64.zero f = true.
Proof.
  destruct f as [s | s | | s m e]; try destruct s; cbn; congruence.
Qed.

Lemma accepted_gt0 a c k d now t :
  Transaction_init a c k d now = Ok t ->
  match a with
  | PyFloat f => Float64.is_nan f = false
  | _ => True
  end ->
  Float64.ltb Float64.zero (amount t) = true.
Proof.
  intros H Hnan.
  destruct (Transaction_init_Ok _ _ _ _ _ _ H)
    as (n & Hn & Hle & _ & Hf & _).
  destruct a as [| b | z | f | s]; try discriminate;
    injection Hn as <-.
  - apply (num_to_float_gt0 (NInt (if b then 1 else 0)));
      [|assumption]. destruct b; [reflexivity | discriminate].
  - apply (num_to_float_gt0 (NInt z)); [|assumption].
    cbn in *. apply Z.ltb_lt. apply Z.leb_gt in Hle. lia.
  - cbn in Hf. injection Hf as <-. now apply float_not_le0_not_nan.
Qed.

(** X1. Whether the constructor accepts depends on the amount and on
    the kind alone: when it accepts, it accepts the same amount and kind
    with any other category and date and stores the same amount and
    kind; the category is stored as it is given, empty or not, and the
    date is the one given, or the clock when none is given. *)
Theorem constructor_ignores_category_and_date a c k d now t c' d' now' :
  Transaction_init a c k d now = Ok t ->
  category t = c /\
  date t = match d with
           | None => now
           | Some x => x
           end /\
  Transaction_init a c' k d' now' =
    Ok {| amount := amount t;
          category := c';
          type := type t;
          date := match d' with
                  | None => now'
                  | Some x => x
                  end |}.
Proof.
  intros H.
  destruct (Transaction_init_Ok _ _ _ _ _ _ H)
    as (n & Hn & Hle & Hk & Hf & Hc & Hty & Hd).
  repeat split; try assumption.
  rewrite (Transaction_init_checked _ n) by assumption.
  now rewrite Hk, Hf, Hty.
Qed.

Lemma constructor_ignores_category_and_date_witness :
  Transaction_init (PyInt 12) "" "Income" (Some (PyDate 2024 2 29)) Sample.now
  = Ok {| amount := Float64.of_Z 12; category := ""; type := "income";
          date := PyDate 2024 2 29 |}.
Proof.
  exact (proj2 (proj2
    (constructor_ignores_category_and_date
       (PyInt 12) "Food" "Income" None Sample.now _
       "" (Some (PyDate 2024 2 29)) Sample.now eq_refl))).
Defined.

(** X2. A transaction that the constructor returns has the kind
    'expense' or 'income', in lower case, and an amount that is not
    [<= 0]; unless the amount given is a NaN, the amount stored is a
    float above zero, also when it is the rounding of an integer. *)
Theorem constructed_transaction_invariant a c k d now t :
  Transaction_init a c k d now = Ok t ->
  (type t = "expense" \/ type t = "income") /\
  Float64.leb (amount t) Float64.zero = false /\
  (a <> PyFloat S754_nan -> Float64.ltb Float64.zero (amount t) = true).
Proof.
  intros H. pose proof (Transaction_init_wf _ _ _ _ _ _ H) as Hwf.
  split; [now apply wf_type|]. split.
  - unfold wf_transaction in Hwf.
    apply andb_true_iff in Hwf as [_ Hwf]. now apply negb_true_iff.
  - intros Hnan. apply (accepted_gt0 _ _ _ _ _ _ H).
    destruct a as [| | | f |]; try exact I.
    destruct f; try reflexivity. now contradiction Hnan.
Qed.

Lemma constructed_transaction_invariant_witness :
  exists t,
    Transaction_init (PyInt (2 ^ 70 + 1)) "Bonus" "INCOME" None Sample.now
      = Ok t /\
    type t = "income" /\
    Float64.ltb Float64.zero (amount t) = true.
Proof.
  eexists. split; [reflexivity|].
  pose proof (constructed_transaction_invariant
                (PyInt (2 ^ 70 + 1)) "Bonus" "INCOME" None Sample.now _
                eq_refl) as (_ & _ & H).
  split; [reflexivity|]. apply H. discriminate.
Defined.

(** ** Additions, again *)

(** X3. An addition that the constructor accepts, into a table that has
    not used its largest row number, returns True, shows no dialog,
    puts the transaction at the end of the list and one row at the end
    of the table; the row has the number after the largest of the
    table (1 in an empty table), which is above every number of the
    table, and holds the category as given, the kind in lower case, the
    amount of the transaction and its date as the platform writes it. *)
Theorem add_accepted_appends os s a c k d now t :
  Transaction_init a c k d now = Ok t ->
  has_room (finance_db s) = true ->
  exists row,
    add_transaction os s a c k d now =
      ({| transactions := (transactions s ++ [t])%list;
          finance_db := (finance_db s ++ [row])%list;
          errors_shown := errors_shown s |}, Ok true) /\
    id row = top_rowid (finance_db s) + 1 /\
    (finance_db s = [] -> id row = 1) /\
    (forall r, In r (finance_db s) -> id r < id row) /\
    row_amount row = bind_real (amount t) /\
    row_category row = c /\
    row_type row = PyStr.lower k /\
    row_date row = PyTime.strftime (year_padded os)
                     match d with
                     | None => now
                     | Some x => x
                     end.
Proof.
  intros H Hroom.
  destruct (Transaction_init_Ok _ _ _ _ _ _ H)
    as (n & _ & _ & _ & _ & Hc & Hty & Hd).
  eexists. split; [exact (add_transaction_room os s _ _ _ _ _ _ H Hroom)|].
  cbn [id row_amount row_category row_type row_date].
  rewrite Hc, Hty, Hd. repeat split.
  - now intros ->.
  - intros r Hr. pose proof (SqliteFacts.top_rowid_fresh (finance_db s)) as Hf.
    rewrite Forall_forall in Hf. now apply Hf.
Qed.

Lemma add_accepted_appends_witness :
  exists row,
    add_transaction Sample.os Sample.salary_rent (PyInt 40) "Food" "Expense"
                    None Sample.now =
      ({| transactions :=
            (transactions Sample.salary_rent ++
             [{| amount := Float64.of_Z 40; category := "Food";
                 type := "expense"; date := Sample.now |}])%list;
          finance_db := (finance_db Sample.salary_rent ++ [row])%list;
          errors_shown := errors_shown Sample.salary_rent |}, Ok true) /\
    id row = 3 /\
    (finance_db Sample.salary_rent = [] -> id row = 1) /\
    (forall r, In r (finance_db Sample.salary_rent) -> id r < id row) /\
    row_amount row = bind_real (Float64.of_Z 40) /\
    row_category row = "Food" /\
    row_type row = "expense" /\
    row_date row = "2024-01-05 10:30:15".
Proof.
  exact (add_accepted_appends Sample.os Sample.salary_rent (PyInt 40) "Food"
           "Expense" None Sample.now _ eq_refl eq_refl).
Defined.

(** X4. A positive integer too large for a float passes the amount
    check; with a known kind the constructor then raises OverflowError,
    which [add_transaction] does not catch: the exception reaches the
    caller, nothing is shown and nothing is stored. With an unknown kind
    the kind is reported first and the call returns False. *)
Theorem add_overflow_propagates os s z c k d now :
  0 < z -> too_large z = true ->
  (known_kind k = true ->
   add_transaction os s (PyInt z) c k d now =
     (s, Raise (OverflowError "int too large to convert to float"))) /\
  (known_kind k = false ->
   snd (add_transaction os s (PyInt z) c k d now) = Ok false /\
   transactions (fst (add_transaction os s (PyInt z) c k d now))
     = transactions s).
Proof.
  intros Hz Hbig. unfold too_large in Hbig.
  assert (Hle : num_le0 (NInt z) = false) by (apply Z.leb_gt; lia).
  unfold add_transaction, try_add.
  rewrite (Transaction_init_checked (PyInt z) (NInt z)) by easy.
  split; intros Hk; rewrite Hk.
  - cbn [num_to_float]. now rewrite Hbig.
  - split; reflexivity.
Qed.

Lemma add_overflow_propagates_witness :
  add_transaction Sample.os Sample.salary_rent (PyInt (2 ^ 1024)) "Prize"
                  "income" None Sample.now =
    (Sample.salary_rent,
     Raise (OverflowError "int too large to convert to float")).
Proof.
  apply (add_overflow_propagates Sample.os Sample.salary_rent (2 ^ 1024)).
  - reflexivity.
  - reflexivity.
  - reflexivity.
Defined.

(** X5. An addition whose kind is not income leaves the total income
    as it was, and one whose kind is not expense leaves the total of
    the expenses as it was, whatever the outcome of the addition. *)
Theorem add_keeps_other_total os alg s a c k d now :
  (PyStr.lower k <> "income" ->
   get_total_income alg (fst (add_transaction os s a c k d now))
     = get_total_income alg s) /\
  (PyStr.lower k <> "expense" ->
   get_total_expenses alg (fst (add_transaction os s a c k d now))
     = get_total_expenses alg s).
Proof.
  unfold get_total_income, get_total_expenses.
  destruct (add_transaction_list os s a c k d now) as [-> | (t & H & ->)];
    [split; reflexivity|].
  destruct (Transaction_init_Ok _ _ _ _ _ _ H)
    as (n & _ & _ & _ & _ & _ & Hty & _).
  split; intros Hk; rewrite filter_app; cbn [filter];
    unfold is_income, is_expense; rewrite Hty.
  - destruct (String.eqb_spec (PyStr.lower k) "income");
      [contradiction | now rewrite app_nil_r].
  - destruct (String.eqb_spec (PyStr.lower k) "expense");
      [contradiction | now rewrite app_nil_r].
Qed.

Lemma add_keeps_other_total_witness :
  get_total_income Compensated
    (fst (add_transaction Sample.os Sample.salary_rent (PyInt 40) "Food"
            "Expense" None Sample.now))
  = get_total_income Compensated Sample.salary_rent.
Proof.
  apply (add_keeps_other_total Sample.os Compensated Sample.salary_rent
           (PyInt 40) "Food" "Expense" None Sample.now).
  discriminate.
Defined.

(** ** Totals of nothing *)



(** ** The keys of the category totals *)

Lemma str_in_In (x : string) (l : list string) :
  str_in x l = true <-> In x l.
Proof.
  unfold str_in. rewrite existsb_exists. split.
  - intros (y & Hy & He). apply String.eqb_eq in He. now subst.
  - intros H. exists x. split; [assumption | apply String.eqb_refl].
Qed.

Lemma keys_accumulate (d : PyDict.dict) (k : string) (a : float) :
  PyDict.keys (accumulate d k a) =
  if str_in k (PyDict.keys d) then PyDict.keys d
  else (PyDict.keys d ++ [k])%list.
Proof.
  unfold accumulate. rewrite PyDictFacts.keys_set.
  destruct (in_dec string_dec k (PyDict.keys d)) as [i | n];
    destruct (str_in k (PyDict.keys d)) eqn:E; try reflexivity.
  - apply str_in_In in i. congruence.
  - apply str_in_In in E. contradiction.
Qed.

Lemma first_seen_snoc (l : list string) (k : string) :
  first_seen (l ++ [k]) =
  if str_in k (first_seen l) then first_seen l
  else (first_seen l ++ [k])%list.
Proof. unfold first_seen. now rewrite fold_left_app. Qed.

Lemma keys_first_seen (l : list Transaction) :
  PyDict.keys (fst (fold_left category_step l ([], []))) =
    first_seen (map category (filter is_expense l)) /\
  PyDict.keys (snd (fold_left category_step l ([], []))) =
    first_seen (map category (filter (fun t => negb (is_expense t)) l)).
Proof.
  induction l as [|t l [IHe IHi]] using rev_ind; [split; reflexivity|].
  rewrite fold_left_app, !filter_app, !map_app. cbn [fold_left filter].
  destruct (fold_left category_step l ([], [])) as [e i].
  cbn [fst snd] in IHe, IHi. unfold category_step.
  destruct (is_expense t); cbn [fst snd negb map]; rewrite ?app_nil_r;
    split; try assumption;
    now rewrite keys_accumulate, first_seen_snoc, ?IHe, ?IHi.
Qed.

(** X7. The keys of each mapping of the category totals are the
    categories of its transactions, each once, in the order in which
    they are first seen in the list: the expenses for the first
    mapping, and for the second the incomes, which in a reachable
    ledger are all the transactions that are no expenses. *)
Theorem category_keys_first_seen (os : platform) (s : Ledger) :
  reachable os s ->
  PyDict.keys (fst (get_category_totals s)) =
    first_seen (map category (filter is_expense (transactions s))) /\
  PyDict.keys (snd (get_category_totals s)) =
    first_seen (map category (filter is_income (transactions s))).
Proof.
  intros Hs. unfold get_category_totals.
  destruct (keys_first_seen (transactions s)) as [He Hi].
  split; [assumption|].
  now rewrite <- (filter_income _ (reachable_wf os s Hs)).
Qed.

Lemma food_twice_reachable : reachable Sample.os Sample.food_twice.
Proof.
  unfold Sample.food_twice, Sample.add.
  apply (reachable_step _ _ _
           (reachable_step _ _ _
              (reachable_init _ [] Sample.now Sample.fresh eq_refl)
              (step_add _ _ _ _ _ _ _))
           (step_add _ _ _ _ _ _ _)).
Qed.

Lemma category_keys_first_seen_witness :
  PyDict.keys (fst (get_category_totals Sample.food_twice)) =
    first_seen (map category
                    (filter is_expense (transactions Sample.food_twice))) /\
  PyDict.keys (snd (get_category_totals Sample.food_twice)) =
    first_seen (map category
                    (filter is_income (transactions Sample.food_twice))).
Proof.
  exact (category_keys_first_seen Sample.os Sample.food_twice
           food_twice_reachable).
Defined.

(** ** Filtering by category, again *)

Lemma eq_ci_truthy (c1 c2 : string) :
  PyStr.eq_ci c1 c2 = true -> PyStr.truthy c1 = PyStr.truthy c2.
Proof. destruct c1, c2; simpl; congruence. Qed.

(** X8. Two spellings of a category that differ only in the case of
    their letters select the same transactions. *)
Theorem filter_ignores_case_of_argument (s : Ledger) (c1 c2 : string) :
  PyStr.eq_ci c1 c2 = true ->
  get_transactions_by_category s (Some c1) =
  get_transactions_by_category s (Some c2).
Proof.
  intros H. unfold get_transactions_by_category.
  rewrite (eq_ci_truthy _ _ H).
  destruct (PyStr.truthy c2); [|reflexivity].
  apply filter_ext. intros t. unfold category_matches.
  rewrite PyStrFacts.eq_ci_lower in H. apply String.eqb_eq in H.
  now rewrite H.
Qed.

Lemma filter_ignores_case_of_argument_witness :
  get_transactions_by_category Sample.food_twice (Some "FOOD") =
  get_transactions_by_category Sample.food_twice (Some "food").
Proof.
  apply filter_ignores_case_of_argument. reflexivity.
Defined.

(** ** Loading, again *)

(** The clock plays no part in a load: every row carries its date. *)
Lemma load_rows_now (rows : table) (now now' : pydate)
    (acc : list Transaction) :
  load_rows rows now acc = load_rows rows now' acc.
Proof.
  revert acc. induction rows as [|r rows IH]; intros acc; [reflexivity|].
  cbn [load_rows]. destruct (PyTime.strptime (row_date r)) as [d|e];
    [|reflexivity].
  change (Transaction_init (real_value (row_amount r)) (row_category r)
            (row_type r) (Some d) now)
    with (Transaction_init (real_value (row_amount r)) (row_category r)
            (row_type r) (Some d) now').
  destruct (Transaction_init _ _ _ _ _); [apply IH | reflexivity].
Qed.

(** X9. A load stops at the first row that does not parse or validate:
    the rows before it are appended to the list, the exception of that
    row is raised, and the rows after it are not read. *)
Theorem load_stops_at_bad_row (r1 r2 : table) (bad : Row) (now : pydate)
    (acc acc1 : list Transaction) (e : exn) :
  load_rows r1 now acc = (acc1, Ok tt) ->
  load_rows [bad] now [] = ([], Raise e) ->
  load_rows (r1 ++ bad :: r2)%list now acc = (acc1, Raise e).
Proof.
  intros H1 Hbad. rewrite (load_rows_app _ _ _ _ _ H1).
  cbn [load_rows] in *.
  destruct (PyTime.strptime (row_date bad)) as [d|e'];
    [|now injection Hbad as <-].
  destruct (Transaction_init _ _ _ _ _) as [t|e'];
    [discriminate | now injection Hbad as <-].
Qed.

Lemma load_stops_at_bad_row_witness :
  load_rows
    (finance_db Sample.salary_rent ++
     {| id := 3; row_amount := Some (Float64.of_Z 5);
        row_category := "Tea"; row_type := "expense";
        row_date := "yesterday" |} :: finance_db Sample.one_expense)%list
    Sample.now [] =
  (fst (load_rows (finance_db Sample.salary_rent) Sample.now []),
   Raise (ValueError
     "time data 'yesterday' does not match format '%Y-%m-%d %H:%M:%S'")).
Proof.
  apply (load_stops_at_bad_row (finance_db Sample.salary_rent)
           (finance_db Sample.one_expense)) with (acc := []).
  - reflexivity.
  - reflexivity.
Defined.

(** A date written by hand without the zeros loads: [strptime] reads
    fields of one digit and any run of white space. *)
Example unpadded_date_loads :
  PyTime.strptime "2024-1-5  1:2:3" = Ok (PyDateTime 2024 1 5 1 2 3 0).
Proof. reflexivity. Qed.


(** ** The table as a mirror of the list *)

(** What [strptime] returns is a date at whole seconds. *)
Lemma strptime_at_seconds (text : string) (d : pydate) :
  PyTime.strptime text = Ok d -> PyTime.at_seconds d = d.
Proof.
  unfold PyTime.strptime.
  repeat match goal with
         | |- context [match ?x with _ => _ end] => destruct x
         end; try discriminate.
  now intros [= <-].
Qed.

Lemma load_rows_stored (rows : table) (now : pydate)
    (acc : list Transaction) :
  map stored acc = acc ->
  map stored (fst (load_rows rows now acc)) = fst (load_rows rows now acc).
Proof.
  revert acc. induction rows as [|r rows IH]; intros acc Hacc;
    cbn [load_rows]; [assumption|].
  destruct (PyTime.strptime (row_date r)) as [d|e] eqn:Hd; [|assumption].
  destruct (Transaction_init _ _ _ _ _) as [t|e] eqn:Ht; [|assumption].
  apply IH. rewrite map_app, Hacc. cbn [map]. do 2 f_equal.
  destruct (Transaction_init_Ok _ _ _ _ _ _ Ht)
    as (_ & _ & _ & _ & _ & _ & _ & Hdate).
  destruct t as [ta tc tty tdate]. cbn in *. subst tdate.
  unfold stored. cbn. now rewrite (strptime_at_seconds _ _ Hd).
Qed.

Lemma storable_not_nan (os : platform) (c : add_call) :
  storable os c = true ->
  match call_amount c with
  | PyFloat f => Float64.is_nan f = false
  | _ => True
  end.
Proof.
  unfold storable. intros H. apply andb_true_iff in H as [H _].
  destruct (call_amount c); try exact I. now apply negb_true_iff.
Qed.

Lemma room_for_has_room (t : table) (n : nat) :
  room_for t (S n) = true -> has_room t = true.
Proof.
  unfold room_for, has_room. intros H. apply Z.leb_le in H.
  apply Z.ltb_lt. lia.
Qed.

(** One addition keeps the mirror, and takes at most one of the free
    numbers of the table. *)
Lemma add_keeps_mirror (os : platform) (s : Ledger) (c : add_call)
    (n : nat) :
  mirrors s -> storable os c = true ->
  room_for (finance_db s) (S n) = true ->
  let s' := fst (add_transaction os s (call_amount c) (call_category c)
                   (call_type c) (call_date c) (call_now c)) in
  mirrors s' /\ room_for (finance_db s') n = true.
Proof.
  intros Hm Hc Hroom. cbv zeta.
  assert (Hn : room_for (finance_db s) n = true).
  { unfold room_for in *. apply Z.leb_le in Hroom. apply Z.leb_le. lia. }
  destruct (Transaction_init (call_amount c) (call_category c) (call_type c)
              (call_date c) (call_now c)) as [t | e] eqn:Ht.
  - rewrite (add_transaction_room os _ _ _ _ _ _ _ Ht
               (room_for_has_room _ _ Hroom)).
    cbn [fst transactions finance_db]. split.
    + intros now. cbn [transactions finance_db].
      rewrite load_rows_split, (Hm now), map_app.
      rewrite (load_written_row os _ t now _
                 (Transaction_init_wf _ _ _ _ _ _ Ht)).
      * pose proof (accepted_gt0 _ _ _ _ _ _ Ht (storable_not_nan _ _ Hc))
          as Hgt.
        destruct (amount t); try reflexivity; discriminate Hgt.
      * destruct (Transaction_init_Ok _ _ _ _ _ _ Ht)
          as (_ & _ & _ & _ & _ & _ & _ & ->).
        unfold storable in Hc. now apply andb_true_iff in Hc as [_ Hc].
    + unfold room_for in *. rewrite SqliteFacts.top_rowid_snoc by reflexivity.
      apply Z.leb_le in Hroom. apply Z.leb_le. lia.
  - unfold add_transaction, try_add. rewrite Ht.
    destruct e; cbn [fst show_error finance_db]; split; assumption.
Qed.

Lemma init_mirrors (db : table) (now : pydate) (s : Ledger) :
  FinanceManager_init db now = (s, Ok tt) ->
  mirrors s /\ finance_db s = db.
Proof.
  unfold FinanceManager_init, load_transactions.
  cbn [finance_db transactions].
  destruct (load_rows db now []) as [txs r] eqn:Hl.
  intros [= <- ->]. split; [|reflexivity]. intros now'.
  cbn [with_transactions transactions finance_db].
  rewrite (load_rows_now db now' now), Hl. f_equal.
  pose proof (load_rows_stored db now [] eq_refl) as H.
  rewrite Hl in H. cbn [fst] in H. now rewrite H.
Qed.

Lemma add_calls_mirror (os : platform) (s : Ledger)
    (calls : list add_call) :
  mirrors s -> Forall (fun c => storable os c = true) calls ->
  room_for (finance_db s) (List.length calls) = true ->
  mirrors (add_calls os s calls).
Proof.
  unfold add_calls. revert s.
  induction calls as [|c calls IH]; intros s Hm Hc Hr; [exact Hm|].
  inversion_clear Hc as [|? ? Hc1 Hc2]. cbn [fold_left List.length] in *.
  destruct (add_keeps_mirror os s c _ Hm Hc1 Hr) as [Hm' Hr'].
  now apply IH.
Qed.

(** X10. After a start (on a table that loads) and any sequence of
    additions, accepted or not, whose amounts are no NaN and whose
    dates are well-formed and written with a year of four digits, into
    a table with a free row number after its largest for each of them,
    the table mirrors the list: a manager started on the table loads
    without error the transactions of the list, in their order, each
    with its amount, category and kind and its date at whole seconds. *)
Theorem restart_reproduces_list (os : platform) (db : table)
    (now now' : pydate) (s : Ledger) (calls : list add_call) :
  FinanceManager_init db now = (s, Ok tt) ->
  Forall (fun c => storable os c = true) calls ->
  room_for db (List.length calls) = true ->
  FinanceManager_init (finance_db (add_calls os s calls)) now' =
    ({| transactions := map stored (transactions (add_calls os s calls));
        finance_db := finance_db (add_calls os s calls);
        errors_shown := [] |}, Ok tt).
Proof.
  intros Hinit Hc Hr.
  destruct (init_mirrors _ _ _ Hinit) as [Hm0 Hdb]. rewrite <- Hdb in Hr.
  pose proof (add_calls_mirror os s calls Hm0 Hc Hr) as Hm.
  unfold FinanceManager_init, load_transactions.
  cbn [finance_db transactions]. now rewrite (Hm now').
Qed.

Lemma restart_reproduces_list_witness :
  FinanceManager_init
    (finance_db
       (add_calls Sample.os Sample.fresh
          [mkCall (PyInt 1200) "Salary" "income" (Some (PyDate 2024 1 5))
                  Sample.now;
           mkCall (PyInt (-5)) "Food" "expense" None Sample.now;
           mkCall (PyFloat (Float64.of_Z 300)) "Rent" "Expense" None
                  Sample.now]))
    Sample.now =
  ({| transactions :=
        [{| amount := Float64.of_Z 1200; category := "Salary";
            type := "income"; date := PyDateTime 2024 1 5 0 0 0 0 |};
         {| amount := Float64.of_Z 300; category := "Rent";
            type := "expense"; date := PyDateTime 2024 1 5 10 30 15 0 |}];
      finance_db :=
        finance_db
          (add_calls Sample.os Sample.fresh
             [mkCall (PyInt 1200) "Salary" "income" (Some (PyDate 2024 1 5))
                     Sample.now;
              mkCall (PyInt (-5)) "Food" "expense" None Sample.now;
              mkCall (PyFloat (Float64.of_Z 300)) "Rent" "Expense" None
                     Sample.now]);
      errors_shown := [] |}, Ok tt).
Proof.
  apply (restart_reproduces_list Sample.os [] Sample.now Sample.now
           Sample.fresh).
  - reflexivity.
  - repeat constructor.
  - reflexivity.
Defined.



(** ** Deletions and the ids of the rows *)

Lemma delete_absent (t : table) (i : Z) :
  rows_with_id t i = [] -> delete t i = t.
Proof.
  unfold rows_with_id, delete. induction t as [|r t IH]; [reflexivity|].
  cbn [filter]. destruct (id r =? i); [discriminate|].
  cbn [negb]. intros H. now rewrite IH.
Qed.

(** X12. Deleting an integer of 64 bits that is the id of no row leaves
    the table as it is and loads it onto the list: when the table
    mirrors the list, the call succeeds and the list becomes the list
    followed by all its transactions as stored, each entry now twice. *)
Theorem delete_absent_id_doubles (s : Ledger) (i : Z) (now : pydate) :
  in_int64 i = true ->
  mirrors s ->
  rows_with_id (finance_db s) i = [] ->
  delete_transaction s i now =
    ({| transactions := (transactions s ++ map stored (transactions s))%list;
        finance_db := finance_db s;
        errors_shown := errors_shown s |}, Ok tt).
Proof.
  intros Hi Hm Hr. unfold delete_transaction, load_transactions.
  rewrite Hi. cbn [finance_db transactions]. rewrite (delete_absent _ _ Hr).
  rewrite load_rows_acc, (Hm now). reflexivity.
Qed.

Lemma salary_rent_mirrors : mirrors Sample.salary_rent.
Proof.
  apply (add_keeps_mirror Sample.os _
           (mkCall (PyInt 300) "Rent" "expense" (Some (PyDate 2024 1 6))
                   Sample.now) 0); [|reflexivity|reflexivity].
  apply (add_keeps_mirror Sample.os _
           (mkCall (PyInt 1200) "Salary" "income" (Some (PyDate 2024 1 5))
                   Sample.now) 0); [|reflexivity|reflexivity].
  apply (init_mirrors [] Sample.now). reflexivity.
Qed.

Lemma delete_absent_id_doubles_witness :
  delete_transaction Sample.salary_rent 7 Sample.now =
    ({| transactions :=
          (transactions Sample.salary_rent ++
           map stored (transactions Sample.salary_rent))%list;
        finance_db := finance_db Sample.salary_rent;
        errors_shown := errors_shown Sample.salary_rent |}, Ok tt).
Proof.
  apply delete_absent_id_doubles.
  - reflexivity.
  - exact salary_rent_mirrors.
  - reflexivity.
Defined.

Lemma delete_app (t1 t2 : table) (i : Z) :
  delete (t1 ++ t2)%list i = (delete t1 i ++ delete t2 i)%list.
Proof. unfold delete. apply filter_app. Qed.

Lemma delete_below (t : table) (i : Z) :
  Forall (fun r => id r < i) t -> delete t i = t.
Proof.
  unfold delete. induction 1 as [|r t Hr _ IH]; [reflexivity|].
  cbn [filter]. destruct (Z.eqb_spec (id r) i); [lia|].
  cbn [negb]. now rewrite IH.
Qed.

(** The number after the largest of a table of integers of 64 bits,
    with room, is an integer of 64 bits. *)
Lemma next_in_int64 (t : table) :
  Forall (fun r => in_int64 (id r) = true) t ->
  has_room t = true ->
  in_int64 (top_rowid t + 1) = true.
Proof.
  intros Hids Hroom. unfold has_room in Hroom. apply Z.ltb_lt in Hroom.
  unfold in_int64. apply andb_true_iff. split; apply Z.leb_le; [|lia].
  destruct t as [|r t]; [cbn; lia|].
  inversion Hids as [|? ? Hr _]; subst.
  unfold in_int64 in Hr. apply andb_true_iff in Hr as [Hr _].
  apply Z.leb_le in Hr.
  destruct (SqliteFacts.rowids_bound (r :: t)) as [E | Hb]; [discriminate|].
  inversion Hb; subst. lia.
Qed.

(** X13. Deleting the row that an accepted addition has just written
    into a table with room (its id is the number after the largest of
    the table before the addition) gives the table back as it was before
    the addition; the list keeps the added transaction, and the load
    that follows appends to it whatever the rows of that table give. *)
Theorem delete_new_row_restores_table os s a c k d now now' t :
  Transaction_init a c k d now = Ok t ->
  Forall (fun r => in_int64 (id r) = true) (finance_db s) ->
  has_room (finance_db s) = true ->
  delete_transaction (fst (add_transaction os s a c k d now))
                     (top_rowid (finance_db s) + 1) now' =
    ({| transactions :=
          ((transactions s ++ [t]) ++
           fst (load_rows (finance_db s) now' []))%list;
        finance_db := finance_db s;
        errors_shown := errors_shown s |},
     snd (load_rows (finance_db s) now' [])).
Proof.
  intros Ht Hids Hroom.
  rewrite (add_transaction_room os _ _ _ _ _ _ _ Ht Hroom). cbn [fst].
  unfold delete_transaction, load_transactions.
  rewrite (next_in_int64 _ Hids Hroom).
  cbn [finance_db transactions errors_shown].
  match goal with
  | |- context [delete (finance_db s ++ [?row])%list ?i] =>
      assert (E : delete (finance_db s ++ [row])%list i = finance_db s)
  end.
  { rewrite delete_app, (delete_below (finance_db s))
      by (apply SqliteFacts.top_rowid_fresh).
    unfold delete. cbn [filter id]. rewrite Z.eqb_refl. cbn [negb].
    apply app_nil_r. }
  rewrite E, load_rows_acc.
  now destruct (load_rows (finance_db s) now' []).
Qed.

Lemma delete_new_row_restores_table_witness :
  finance_db
    (fst (delete_transaction
            (fst (add_transaction Sample.os Sample.salary_rent (PyInt 40)
                    "Food" "expense" None Sample.now))
            3 Sample.now))
  = finance_db Sample.salary_rent.
Proof.
  assert (Hids : Forall (fun r => in_int64 (id r) = true)
                        (finance_db Sample.salary_rent)).
  { repeat (apply Forall_cons; [reflexivity|]). apply Forall_nil. }
  pose proof (delete_new_row_restores_table Sample.os Sample.salary_rent
                (PyInt 40) "Food" "expense" None Sample.now Sample.now _
                eq_refl Hids eq_refl) as H.
  change (top_rowid (finance_db Sample.salary_rent) + 1) with 3 in H.
  now rewrite H.
Defined.

Lemma increasing_from_lt (lo : Z) (l : list Z) :
  increasing_from lo l = true -> forall y, In y l -> lo < y.
Proof.
  revert lo. induction l as [|x r IH]; intros lo H y Hy; [destruct Hy|].
  cbn in H. apply andb_true_iff in H as [H1 H2]. apply Z.ltb_lt in H1.
  destruct Hy as [<- | Hy]; [assumption|].
  specialize (IH x H2 y Hy). lia.
Qed.

Lemma load_transactions_db (s : Ledger) (now : pydate) :
  finance_db (fst (load_transactions s now)) = finance_db s.
Proof. now rewrite load_transactions_fst. Qed.

Lemma increasing_one_match (lo i : Z) (l : list Z) :
  increasing_from lo l = true ->
  (List.length (filter (fun z => (z =? i)%Z) l) <= 1)%nat.
Proof.
  revert lo. induction l as [|x r IH]; intros lo H; cbn [filter];
    [cbn; lia|].
  cbn in H. apply andb_true_iff in H as [_ H].
  destruct (Z.eqb_spec x i) as [-> | _]; [|now apply (IH x)].
  replace (filter (fun z => z =? i) r) with (@nil Z); [cbn; lia|].
  symmetry. pose proof (increasing_from_lt i r H) as Hlt.
  clear -Hlt. induction r as [|y r IH]; [reflexivity|]. cbn [filter].
  destruct (Z.eqb_spec y i) as [-> | _].
  - specialize (Hlt i (or_introl eq_refl)). lia.
  - apply IH. intros z Hz. apply Hlt. now right.
Qed.

Lemma ids_rows_with_id (t : table) (i : Z) :
  map id (rows_with_id t i) = filter (fun z => z =? i) (map id t).
Proof.
  unfold rows_with_id. induction t as [|r t IH]; [reflexivity|].
  cbn [filter map]. destruct (id r =? i); cbn [map]; now rewrite IH.
Qed.

Lemma delete_partition (t : table) (i : Z) :
  (List.length (delete t i) + List.length (rows_with_id t i))%nat
  = List.length t.
Proof.
  unfold delete, rows_with_id. induction t as [|r t IH]; [reflexivity|].
  cbn [filter]. destruct (id r =? i); cbn [negb List.length]; lia.
Qed.

(** X15. When the ids are increasing, at most one row carries a given
    id, and a deletion removes at most one row from the table: for an
    integer of 64 bits the rows with another id stay, in their order;
    for any other integer the binding of the parameter raises
    OverflowError and the ledger stays as it is. *)
Theorem delete_removes_at_most_one (s : Ledger) (i : Z) (now : pydate) :
  ids_increasing (finance_db s) = true ->
  (List.length (rows_with_id (finance_db s) i) <= 1)%nat /\
  (in_int64 i = true ->
   finance_db (fst (delete_transaction s i now)) =
     filter (fun r => negb (id r =? i)) (finance_db s)) /\
  (in_int64 i = false ->
   delete_transaction s i now = (s, Raise int_too_large)) /\
  (List.length (finance_db s) <=
   List.length (finance_db (fst (delete_transaction s i now))) + 1)%nat.
Proof.
  intros H.
  assert (H1 : (List.length (rows_with_id (finance_db s) i) <= 1)%nat).
  { rewrite <- (length_map id), ids_rows_with_id.
    apply (increasing_one_match 0), H. }
  unfold delete_transaction.
  destruct (in_int64 i); repeat split; try assumption; try discriminate.
  - intros _. now rewrite load_transactions_db.
  - rewrite load_transactions_db. cbn [finance_db].
    pose proof (delete_partition (finance_db s) i). lia.
  - cbn [fst]. lia.
Qed.

Lemma delete_removes_at_most_one_witness :
  finance_db (fst (delete_transaction Sample.salary_rent 1 Sample.now)) =
    filter (fun r => negb (id r =? 1)) (finance_db Sample.salary_rent).
Proof.
  exact (proj1 (proj2 (delete_removes_at_most_one Sample.salary_rent 1
                         Sample.now eq_refl)) eq_refl).
Defined.

(** ** The summary panel *)

Lemma filter_snoc_false {A} (p : A -> bool) (l : list A) (x : A) :
  p x = false -> filter p (l ++ [x]) = filter p l.
Proof.
  intros H. rewrite filter_app. cbn [filter]. rewrite H. apply app_nil_r.
Qed.

(** The list after an addition that the constructor accepts. *)
Lemma add_transaction_appends os s a c k d now t :
  Transaction_init a c k d now = Ok t ->
  transactions (fst (add_transaction os s a c k d now)) =
    (transactions s ++ [t])%list.
Proof.
  intros Ht.
  destruct (insert_transaction os (finance_db s) t) as [db|e] eqn:Hdb.
  - now rewrite (add_transaction_accepted _ _ _ _ _ _ _ _ _ Ht Hdb).
  - now rewrite (add_transaction_full _ _ _ _ _ _ _ _ _ Ht Hdb).
Qed.

(** X16. An accepted addition whose date is not of the current month
    and year changes none of the three figures of the month on the
    summary panel. *)
Theorem month_figures_skip_other_months os alg s a c k d now now1 now2 t :
  Transaction_init a c k d now = Ok t ->
  in_month (date_month now1) (date_year now2) t = false ->
  let before := update_summary_panel alg s now1 now2 in
  let after :=
    update_summary_panel alg (fst (add_transaction os s a c k d now))
      now1 now2 in
  month_income after = month_income before /\
  month_expenses after = month_expenses before /\
  month_balance after = month_balance before.
Proof.
  intros Ht Hm. unfold update_summary_panel.
  rewrite (add_transaction_appends os s _ _ _ _ _ _ Ht).
  cbn -[filter py_sum amounts num_sub].
  rewrite !filter_snoc_false by (rewrite Hm; apply andb_false_r).
  repeat split.
Qed.

Lemma month_figures_skip_other_months_witness :
  month_balance
    (update_summary_panel Compensated
       (fst (add_transaction Sample.os Sample.salary_rent (PyInt 40) "Food"
               "expense" (Some (PyDate 2023 12 31)) Sample.now))
       Sample.now Sample.now)
  = month_balance
      (update_summary_panel Compensated Sample.salary_rent
         Sample.now Sample.now).
Proof.
  exact (proj2 (proj2
    (month_figures_skip_other_months Sample.os Compensated Sample.salary_rent
       (PyInt 40) "Food" "expense" (Some (PyDate 2023 12 31)) Sample.now
       Sample.now Sample.now _ eq_refl eq_refl))).
Defined.

(** ** The transactions of the printed summary *)

(** X17. The summary prints the last five transactions of the list in
    their order, or all of them when there are fewer; after an accepted
    addition the transaction added is the last one printed. *)
Theorem recent_transactions_are_the_last_five (s : Ledger) :
  (exists older,
      transactions s = (older ++ recent_transactions s)%list) /\
  List.length (recent_transactions s)
    = Nat.min 5 (List.length (transactions s)) /\
  forall os a c k d now t t0,
    Transaction_init a c k d now = Ok t ->
    last (recent_transactions (fst (add_transaction os s a c k d now))) t0
      = t.
Proof.
  unfold recent_transactions. split; [|split].
  - exists (firstn (List.length (transactions s) - 5) (transactions s)).
    now rewrite firstn_skipn.
  - rewrite length_skipn. lia.
  - intros os a c k d now t t0 Ht.
    rewrite (add_transaction_appends os s _ _ _ _ _ _ Ht).
    rewrite length_app. cbn [List.length].
    rewrite skipn_app.
    replace (List.length (transactions s) + 1 - 5
             - List.length (transactions s))%nat with 0%nat by lia.
    cbn [skipn]. apply last_last.
Qed.

Lemma recent_transactions_are_the_last_five_witness :
  last (recent_transactions
          (fst (add_transaction Sample.os Sample.large_small (PyInt 40)
                  "Food" "expense" None Sample.now)))
       {| amount := Float64.zero; category := ""; type := "";
          date := Sample.now |}
  = {| amount := Float64.of_Z 40; category := "Food"; type := "expense";
       date := Sample.now |}.
Proof.
  exact (proj2 (proj2 (recent_transactions_are_the_last_five
                         Sample.large_small))
               Sample.os (PyInt 40) "Food" "expense" None Sample.now _ _
               eq_refl).
Defined.

